(** * The oracle conversation orchestrator (src/services/oracleService.ts)

    A shallow embedding of the [OracleService] class: the agent selector
    ([determineNextAgent]), the topic extractor ([extractTopics]), the
    loop-breaking part of the context builder ([buildEnhancedContext],
    [forceTopicChange]), the session bookkeeping ([updateSession],
    [updateConversationTopic], [setConversationTopic], [clearMessages]) and
    the tick ([generateNextMessage]), followed by the properties of the
    specification that concern them.

    Conventions of the embedding.
    - Message texts, topics and ids are [string]s; characters are bytes and
      [toLowerCase] acts on the letters A-Z, as
      [String.prototype.toLowerCase] does on a text in the ASCII range.  The
      statements about the case of letters are made for such texts.
    - Timestamps are integers ([Z], milliseconds).  Counters and the rotation
      index are [nat]: the code creates them as 0 and only ever assigns
      [n + 1] and [(i + 1) % 4].
    - [Date.now()], [Math.random()] and the external text generator are
      inputs of the functions that read them.
    - The Firebase store is explicit state; the service object's mutable
      fields and the logger's output are part of the same world, threaded by
      a small state monad. *)

From Stdlib Require Import ZArith QArith Qround Lia Bool.
From Stdlib Require Import Ascii String.
From stdpp Require Import base decidable option list strings pretty.

Local Open Scope string_scope.
Local Open Scope Z_scope.

(** ** Strings as the code uses them *)

Module Js.

(** [String.prototype.toLowerCase] on one character. *)
Definition lower_ascii (c : ascii) : ascii :=
  let n := nat_of_ascii c in
  if (65 <=? n)%nat && (n <=? 90)%nat then ascii_of_nat (n + 32) else c.


Fixpoint map_string (f : ascii -> ascii) (s : string) : string :=
  match s with
  | EmptyString => EmptyString
  | String c r => String (f c) (map_string f r)
  end.

Definition toLowerCase : string -> string := map_string lower_ascii.

(** [s.includes(needle)]: [needle] occurs in [s] as a contiguous run. *)
Fixpoint includes (s needle : string) : bool :=
  String.prefix needle s
  || match s with
     | EmptyString => false
     | String _ r => includes r needle
     end.

(** [xs.slice(-n)]: the last [n] elements, all of them when there are
    fewer. *)
Definition slice_last {A} (n : nat) (xs : list A) : list A :=
  drop (length xs - n)%nat xs.

(** [xs.some(p)] and [xs.every(p)]. *)
Definition some {A} (p : A -> bool) (xs : list A) : bool := existsb p xs.
Definition every {A} (p : A -> bool) (xs : list A) : bool := forallb p xs.

End Js.

(** ** Topic extractor *)

(** The keyword table of [extractTopics], in declaration order. *)
Definition topicKeywords : list (string * list string) :=
  [ ("market_analysis", ["market"; "price"; "volume"; "liquidity"; "trading"]);
    ("holder_behavior", ["holders"; "distribution"; "concentration"; "whales"]);
    ("technical_analysis",
       ["levels"; "support"; "resistance"; "patterns"; "indicators"]);
    ("fundamentals",
       ["utility"; "adoption"; "innovation"; "technology"; "use case"]);
    ("market_sentiment",
       ["fear"; "greed"; "optimism"; "pessimism"; "sentiment"]);
    ("risk_assessment", ["risk"; "danger"; "warning"; "caution"; "safety"]);
    ("future_outlook",
       ["future"; "prediction"; "forecast"; "scenario"; "outcome"]) ].

Definition general_market_discussion : string := "general_market_discussion".

(** [keywords.some(keyword => messageLower.includes(keyword))] *)
Definition matchesAny (messageLower : string) (keywords : list string) : bool :=
  Js.some (fun keyword => Js.includes messageLower keyword) keywords.

(** The loop over [Object.entries(topicKeywords)] that fills [foundTopics]. *)
Definition foundTopics (messageLower : string) : list string :=
  map fst (filter (fun entry => matchesAny messageLower (snd entry) = true)
                  topicKeywords).

Definition extractTopics (message : string) : list string :=
  let messageLower := Js.toLowerCase message in
  match foundTopics messageLower with
  | [] => [general_market_discussion]
  | found => found
  end.

(** ** Case-insensitive occurrence

    What "a keyword occurs in the text, in whatever case" means, said
    without [toLowerCase] and [includes]: the text is cut in three, and the
    middle part is the keyword up to the case of its letters. *)







(** ** Data model *)

(** The [agent] union of [OracleMessage]. *)
Inductive Agent := analyzer | predictor | quantum_eraser | retrocausal | system.

#[global] Instance Agent_eq_dec : EqDecision Agent.
Proof. solve_decision. Defined.

(** The string an agent is written as in template literals. *)
Definition agentName (a : Agent) : string :=
  match a with
  | analyzer => "analyzer"
  | predictor => "predictor"
  | quantum_eraser => "quantum-eraser"
  | retrocausal => "retrocausal"
  | system => "system"
  end.

Inductive MessageType := TyMessage | TyAnalysis | TyPrediction.

Module OracleMessage.
Record t := mk {
  id : string;
  agent : Agent;
  message : string;
  timestamp : Z;
  type : MessageType;
  sessionId : string
}.
End OracleMessage.

(** The session record as it lives in the store: a JSON node, so every
    property may be missing; the node does not exist ([snapshot.val()] is
    [null]) when it has no property at all.  An empty [topicHistory] array is
    not stored, so the missing property and [[]] are the same value. *)
Module OracleSession.
Record t := mk {
  id : option string;
  lastAgentIndex : option nat;
  messageCount : option nat;
  lastMessageTime : option Z;
  isActive : option bool;
  createdAt : option Z;
  updatedAt : option Z;
  currentTopic : option string;
  conversationTheme : option string;
  lastTopicChange : option Z;
  topicHistory : list string
}.

Definition absent : t :=
  mk None None None None None None None None None None [].

Definition isNull (s : t) : bool :=
  match s with
  | mk None None None None None None None None None None [] => true
  | _ => false
  end.
End OracleSession.

(** A property of an object literal handed to the store: left out, present
    with the value [undefined], or present with a value. *)
Inductive Field (A : Type) := Omitted | Undefined | Val (a : A).
Arguments Omitted {A}.
Arguments Undefined {A}.
Arguments Val {A} a.

Definition isUndefined {A} (f : Field A) : bool :=
  match f with Undefined => true | _ => false end.

(** The object literals passed to [sessionRef.update]. *)
Module SessionUpdate.
Record t := mk {
  lastAgentIndex : Field nat;
  messageCount : Field nat;
  lastMessageTime : Field Z;
  updatedAt : Field Z;
  currentTopic : Field string;
  conversationTheme : Field string;
  lastTopicChange : Field Z;
  topicHistory : Field (list string)
}.

Definition hasUndefined (u : t) : bool :=
  isUndefined (lastAgentIndex u) || isUndefined (messageCount u)
  || isUndefined (lastMessageTime u) || isUndefined (updatedAt u)
  || isUndefined (currentTopic u) || isUndefined (conversationTheme u)
  || isUndefined (lastTopicChange u) || isUndefined (topicHistory u).

Definition dropUndefined {A} (f : Field A) : Field A :=
  match f with Undefined => Omitted | _ => f end.

(** [Object.keys(updateData).forEach(key => { if (updateData[key] ===
    undefined) delete updateData[key] })] *)
Definition deleteUndefinedKeys (u : t) : t :=
  mk (dropUndefined (lastAgentIndex u)) (dropUndefined (messageCount u))
     (dropUndefined (lastMessageTime u)) (dropUndefined (updatedAt u))
     (dropUndefined (currentTopic u)) (dropUndefined (conversationTheme u))
     (dropUndefined (lastTopicChange u)) (dropUndefined (topicHistory u)).
End SessionUpdate.

(** ** The store (Firebase Realtime Database) *)

Record Store := mkStore {
  messages : list OracleMessage.t;   (* 'oracle-messages', oldest first *)
  session : OracleSession.t          (* 'oracle-session/<sessionId>' *)
}.

Module Firebase.

(** [ref('oracle-messages/' + m.id).set(m)]: one node per id; writing an id
    that is there replaces the node, a new id adds one. *)
Fixpoint set (m : OracleMessage.t) (ms : list OracleMessage.t)
  : list OracleMessage.t :=
  match ms with
  | [] => [m]
  | x :: r =>
      if bool_decide (OracleMessage.id x = OracleMessage.id m)
      then m :: r
      else x :: set m r
  end.

(** [orderByChild('timestamp').limitToLast(limit)]: messages are kept in
    timestamp order, which is the order of arrival. *)
Definition limitToLast (limit : nat) (ms : list OracleMessage.t)
  : list OracleMessage.t :=
  Js.slice_last limit ms.

Definition merge {A} (f : Field A) (old : option A) : option A :=
  match f with Val a => Some a | _ => old end.

Definition mergeList {A} (f : Field (list A)) (old : list A) : list A :=
  match f with Val l => l | _ => old end.

(** [sessionRef.update(values)]: the properties present in [values] are
    written, the others stay.  The database validates its argument first
    and throws ("contains undefined in property ...") when a property holds
    [undefined]; this is why [updateSession] deletes such keys before the
    call.  [None] stands for the exception. *)
Definition update (u : SessionUpdate.t) (s : OracleSession.t)
  : option OracleSession.t :=
  if SessionUpdate.hasUndefined u then None
  else Some
    (OracleSession.mk
       (OracleSession.id s)
       (merge (SessionUpdate.lastAgentIndex u) (OracleSession.lastAgentIndex s))
       (merge (SessionUpdate.messageCount u) (OracleSession.messageCount s))
       (merge (SessionUpdate.lastMessageTime u) (OracleSession.lastMessageTime s))
       (OracleSession.isActive s)
       (OracleSession.createdAt s)
       (merge (SessionUpdate.updatedAt u) (OracleSession.updatedAt s))
       (merge (SessionUpdate.currentTopic u) (OracleSession.currentTopic s))
       (merge (SessionUpdate.conversationTheme u)
              (OracleSession.conversationTheme s))
       (merge (SessionUpdate.lastTopicChange u) (OracleSession.lastTopicChange s))
       (mergeList (SessionUpdate.topicHistory u) (OracleSession.topicHistory s))).

End Firebase.

(** ** The service object, the logger and the world *)

Inductive LogEvent :=
  | WarnNoDatabase (operation : string)
  | ErrNoSession
  | DbgGenerating (a : Agent)
  | DbgGenerated (text : string)
  | ErrContextualResponse
  | ErrUpdatingSession
  | DbgLoopBreak (lastAgent : Agent)
  | DbgSelfRespond (lastAgent : Agent) (seconds : Z)
  | DbgRepetition
  | DbgForcedTopic (topic : string)
  | DbgTopicChanged (topic : string)
  | InfoTopicSet (topic : string)
  | InfoCleared
  | ErrClearing.

(** The mutable fields of the [OracleService] singleton.  [interval] is
    [true] when [this.interval] holds a timer handle. *)
Module OracleService.
Record t := mk {
  interval : bool;
  isRunning : bool;
  lastAgentIndex : nat;
  sessionId : string
}.
End OracleService.

Record World := mkWorld {
  this : OracleService.t;
  db : option Store;               (* [None]: getFirebaseDatabase() is null *)
  log : list LogEvent              (* oldest first *)
}.

(** The fixed roster [this.agents]. *)
Definition agents : list Agent := [analyzer; predictor; quantum_eraser; retrocausal].

(** [this.agents[i]]; every index the code computes is in range
    ([agents_in_range] below), so the default is never returned. *)
Definition agentAt (i : nat) : Agent := default analyzer (agents !! i).

(** *** State monad over the world *)

Definition M (A : Type) : Type := World -> A * World.

#[global] Instance M_ret : MRet M := fun A x w => (x, w).
#[global] Instance M_bind : MBind M :=
  fun A B f c w => let '(a, w') := c w in f a w'.

Definition exec {A} (c : M A) (w : World) : World := snd (c w).
Definition eval {A} (c : M A) (w : World) : A := fst (c w).

Definition getFirebaseDatabase : M (option Store) := fun w => (db w, w).

Definition putStore (st : Store) : M unit :=
  fun w => (tt, mkWorld (this w) (Some st) (log w)).

Definition logger (e : LogEvent) : M unit :=
  fun w => (tt, mkWorld (this w) (db w) (log w ++ [e])).

Definition getThis : M OracleService.t := fun w => (this w, w).

Definition setLastAgentIndex (i : nat) : M unit :=
  fun w =>
    let s := this w in
    (tt, mkWorld (OracleService.mk (OracleService.interval s)
                    (OracleService.isRunning s) i (OracleService.sessionId s))
                 (db w) (log w)).

(** ** Store access *)

Definition getCurrentSession : M (option OracleSession.t) :=
  d ← getFirebaseDatabase;
  match d with
  | None =>
      _ ← logger (WarnNoDatabase "returning null session");
      mret None
  | Some st =>
      (* snapshot.val() *)
      mret (if OracleSession.isNull (session st) then None
            else Some (session st))
  end.

Definition getRecentMessages (limit : nat) : M (list OracleMessage.t) :=
  d ← getFirebaseDatabase;
  match d with
  | None =>
      _ ← logger (WarnNoDatabase "returning empty messages");
      mret []
  | Some st => mret (Firebase.limitToLast limit (messages st))
  end.

Definition saveMessage (m : OracleMessage.t) : M unit :=
  d ← getFirebaseDatabase;
  match d with
  | None => logger (WarnNoDatabase "message not saved")
  | Some st => putStore (mkStore (Firebase.set m (messages st)) (session st))
  end.

(** What [updateSession] is called with: a message on the tick path, and an
    object spread from the session ([{...session, currentTopic: ...}]) in
    [updateConversationTopic] and [setConversationTopic]. *)
Inductive UpdateArg :=
  | OfMessage (m : OracleMessage.t)
  | OfSession (s : OracleSession.t).

(** [message.timestamp]: a session object has no such property. *)
Definition argTimestamp (a : UpdateArg) : Field Z :=
  match a with
  | OfMessage m => Val (OracleMessage.timestamp m)
  | OfSession _ => Undefined
  end.

(** [currentSession?.messageCount || 0] *)
Definition storedCount (s : option OracleSession.t) : nat :=
  match s with
  | Some s => default 0%nat (OracleSession.messageCount s)
  | None => 0%nat
  end.

Definition updateSession (arg : UpdateArg) (now : Z) : M unit :=
  d ← getFirebaseDatabase;
  match d with
  | None => logger (WarnNoDatabase "session not updated")
  | Some st =>
      currentSession ← getCurrentSession;
      self ← getThis;
      let updateData :=
        SessionUpdate.mk
          (Val (OracleService.lastAgentIndex self))
          (Val (storedCount currentSession + 1)%nat)
          (argTimestamp arg)
          (Val now)
          Omitted Omitted Omitted Omitted in
      let updateData := SessionUpdate.deleteUndefinedKeys updateData in
      match Firebase.update updateData (session st) with
      | Some s' => putStore (mkStore (messages st) s')
      | None => logger ErrUpdatingSession
      end
  end.

(** ** Agent selector *)

(** [Math.floor((now - timestamp) / 1000)] *)
Definition secondsSince (now timestamp : Z) : Z := (now - timestamp) / 1000.

(** [Math.random() < 0.15]; the draw is a rational in [0, 1). *)
Definition selfResponseChance : Q := 15 # 100.

Definition Qltb (x y : Q) : bool := negb (Qle_bool y x).

(** [recentMessages.slice(-3).map(msg => msg.agent)
      .every(agent => agent === lastAgent)] *)
Definition isLooping (recentMessages : list OracleMessage.t) (lastAgent : Agent)
  : bool :=
  Js.every (fun a => bool_decide (a = lastAgent))
           (map OracleMessage.agent (Js.slice_last 3 recentMessages)).

Definition shouldSelfRespond (timeSinceLastMessage : Z) (draw : Q) : bool :=
  (timeSinceLastMessage <? 60) && Qltb draw selfResponseChance.

(** The rotation shared by the loop guard and the normal path:
    [nextIndex = (this.lastAgentIndex + 1) % this.agents.length]. *)
Definition rotate : M Agent :=
  self ← getThis;
  let nextIndex :=
    ((OracleService.lastAgentIndex self + 1) mod length agents)%nat in
  _ ← setLastAgentIndex nextIndex;
  mret (agentAt nextIndex).

Definition determineNextAgent
    (recentMessages : list OracleMessage.t) (now : Z) (draw : Q) : M Agent :=
  match last recentMessages with
  | None =>
      (* recentMessages.length === 0 *)
      _ ← setLastAgentIndex 0%nat;
      mret (agentAt 0)
  | Some lastMessage =>
      let lastAgent := OracleMessage.agent lastMessage in
      let timeSinceLastMessage :=
        secondsSince now (OracleMessage.timestamp lastMessage) in
      if isLooping recentMessages lastAgent then
        _ ← logger (DbgLoopBreak lastAgent);
        rotate
      else if shouldSelfRespond timeSinceLastMessage draw then
        _ ← logger (DbgSelfRespond lastAgent timeSinceLastMessage);
        mret lastAgent
      else rotate
  end.

(** ** Topic and theme management *)

(** [session.topicHistory || []] is the list itself;
    [[...topicHistory.slice(-4), topic]] *)
Definition pushTopic (topicHistory : list string) (topic : string) : list string :=
  Js.slice_last 4 topicHistory ++ [topic].

(** [{...session, currentTopic: topic, lastTopicChange: now, topicHistory}] *)
Definition withTopic (s : OracleSession.t) (topic : string) (now : Z)
  : OracleSession.t :=
  OracleSession.mk
    (OracleSession.id s) (OracleSession.lastAgentIndex s)
    (OracleSession.messageCount s) (OracleSession.lastMessageTime s)
    (OracleSession.isActive s) (OracleSession.createdAt s)
    (OracleSession.updatedAt s)
    (Some topic) (OracleSession.conversationTheme s) (Some now)
    (pushTopic (OracleSession.topicHistory s) topic).

Definition setConversationTopic (topic : string) (now : Z) : M unit :=
  session ← getCurrentSession;
  match session with
  | None => mret tt
  | Some session =>
      _ ← updateSession (OfSession (withTopic session topic now)) now;
      logger (InfoTopicSet topic)
  end.

(** [(session.messageCount % 10 === 0) ||
     (session.lastTopicChange && (currentTime - session.lastTopicChange) > 300000)]
    A missing count gives [NaN === 0], false; a missing or zero
    [lastTopicChange] is falsy. *)
Definition shouldChangeTopic (session : OracleSession.t) (currentTime : Z) : bool :=
  match OracleSession.messageCount session with
  | Some n => (n mod 10 =? 0)%nat
  | None => false
  end
  || match OracleSession.lastTopicChange session with
     | Some t => negb (t =? 0) && (300000 <? currentTime - t)
     | None => false
     end.

Definition updateConversationTopic (newMessage : OracleMessage.t) (now : Z)
  : M unit :=
  session ← getCurrentSession;
  match session with
  | None => mret tt
  | Some session =>
      let topics := extractTopics (OracleMessage.message newMessage) in
      let currentTime := now in
      match topics with
      | newTopic :: _ =>
          if shouldChangeTopic session currentTime then
            _ ← updateSession
                  (OfSession (withTopic session newTopic currentTime)) now;
            logger (DbgTopicChanged newTopic)
          else mret tt
      | [] => mret tt
      end
  end.

(** ** Context builder: the loop-breaking side effect *)

Definition newTopics : list string :=
  [ "Analyze the technical indicators and chart patterns";
    "Discuss market sentiment and investor psychology";
    "Examine liquidity dynamics and trading volume patterns";
    "Explore price action and support/resistance levels";
    "Consider macro market conditions and external factors";
    "Evaluate token fundamentals and project development";
    "Assess risk management and position sizing strategies";
    "Review recent news and market catalysts" ].

(** [Math.floor(Math.random() * n)] *)
Definition randomIndex (draw : Q) (n : nat) : nat :=
  Z.to_nat (Qfloor (draw * inject_Z (Z.of_nat n))).

(** [setConversationTopic] is called without [await]; its writes are taken
    at the point of the call. *)
Definition forceTopicChange (draw : Q) (now : Z) : M unit :=
  let randomTopic := default "" (newTopics !! randomIndex draw (length newTopics)) in
  _ ← setConversationTopic randomTopic now;
  logger (DbgForcedTopic randomTopic).

(** [lastThreeMessages.length >= 2 &&
     lastThreeMessages.every(msg => msg === lastThreeMessages[0])] *)
Definition isRepeating (recentMessages : list OracleMessage.t) : bool :=
  let lastThreeMessages :=
    map OracleMessage.message (Js.slice_last 3 recentMessages) in
  (2 <=? length lastThreeMessages)%nat
  && match lastThreeMessages with
     | first :: _ => Js.every (fun msg => bool_decide (msg = first)) lastThreeMessages
     | [] => true
     end.

(** [buildEnhancedContext] returns the prompt text for the external
    generator, whose answer is an input here; what is kept of it is its
    effect on the world. *)
Definition buildEnhancedContext
    (recentMessages : list OracleMessage.t) (currentAgent : Agent)
    (topicDraw : Q) (now : Z) : M unit :=
  match recentMessages with
  | [] => mret tt                       (* getInitialTopicPrompt() *)
  | _ =>
      if isRepeating recentMessages then
        _ ← logger DbgRepetition;
        forceTopicChange topicDraw now
      else mret tt
  end.

(** ** The tick *)

(** What [grokService.generateCompanionResponse] does on a call: it throws
    (the promise rejects) or it answers with a text, possibly empty. *)
Inductive Generated := Throws | Returns (response : string).

(** What a tick reads from outside the world. *)
Record TickInput := mkTickInput {
  nowBefore : Z;        (* Date.now() up to the call of the generator *)
  selfDraw : Q;         (* Math.random() in determineNextAgent *)
  topicDraw : Q;        (* Math.random() in forceTopicChange *)
  generated : Generated;
  nowAfter : Z;         (* Date.now() once the generator has answered *)
  idDraw : string       (* Math.random().toString(36).substr(2, 9) *)
}.

(** [`The ${agent} contemplates the cosmic market patterns from the oracle
    realm.`] *)
Definition fallbackMessage (agent : Agent) : string :=
  "The " ++ agentName agent
  ++ " contemplates the cosmic market patterns from the oracle realm.".

(** [`oracle-${Date.now()}-${Math.random().toString(36).substr(2, 9)}`] *)
Definition messageId (now : Z) (draw : string) : string :=
  "oracle-" ++ pretty now ++ "-" ++ draw.

(** [response || fallback]: the empty string is falsy. *)
Definition orElse (response fallback : string) : string :=
  match response with
  | EmptyString => fallback
  | _ => response
  end.

Definition generateContextualResponse
    (agent : Agent) (recentMessages : list OracleMessage.t) (inp : TickInput)
  : M OracleMessage.t :=
  _ ← buildEnhancedContext recentMessages agent (topicDraw inp) (nowBefore inp);
  self ← getThis;
  match generated inp with
  | Returns response =>
      mret (OracleMessage.mk
              (messageId (nowAfter inp) (idDraw inp))
              agent
              (orElse response (fallbackMessage agent))
              (nowAfter inp) TyMessage (OracleService.sessionId self))
  | Throws =>
      _ ← logger ErrContextualResponse;
      mret (OracleMessage.mk
              (messageId (nowAfter inp) (idDraw inp))
              agent
              (fallbackMessage agent)
              (nowAfter inp) TyMessage (OracleService.sessionId self))
  end.

Definition generateNextMessage (inp : TickInput) : M unit :=
  session ← getCurrentSession;
  match session with
  | None => logger ErrNoSession
  | Some _ =>
      recentMessages ← getRecentMessages 8;
      nextAgent ← determineNextAgent recentMessages (nowBefore inp) (selfDraw inp);
      _ ← logger (DbgGenerating nextAgent);
      newMessage ← generateContextualResponse nextAgent recentMessages inp;
      _ ← saveMessage newMessage;
      _ ← updateSession (OfMessage newMessage) (nowAfter inp);
      _ ← updateConversationTopic newMessage (nowAfter inp);
      logger (DbgGenerated (substring 0 50 (OracleMessage.message newMessage)))
  end.

(** A run of ticks, one input per tick. *)
Fixpoint ticks (inputs : list TickInput) : M unit :=
  match inputs with
  | [] => mret tt
  | inp :: rest => _ ← generateNextMessage inp; ticks rest
  end.

(** ** Bulk clear *)

(** The object literal of [clearMessages]. *)
Definition resetData (now : Z) : SessionUpdate.t :=
  SessionUpdate.mk
    Omitted            (* lastAgentIndex is not mentioned *)
    (Val 0%nat)        (* messageCount: 0 *)
    (Val now)          (* lastMessageTime: Date.now() *)
    (Val now)          (* updatedAt: Date.now() *)
    Undefined          (* currentTopic: undefined *)
    Undefined          (* conversationTheme: undefined *)
    Undefined          (* lastTopicChange: undefined *)
    (Val []).          (* topicHistory: [] *)

Definition clearMessages (now : Z) : M unit :=
  d ← getFirebaseDatabase;
  match d with
  | None => logger (WarnNoDatabase "cannot clear messages")
  | Some st =>
      (* await db.ref('oracle-messages').remove() *)
      _ ← putStore (mkStore [] (session st));
      match Firebase.update (resetData now) (session st) with
      | Some s' =>
          _ ← putStore (mkStore [] s');
          logger InfoCleared
      | None => logger ErrClearing
      end
  end.

(** The session literal written by [initializeSession] when none is stored. *)
Definition newSession (sessionId : string) (now : Z) : OracleSession.t :=
  OracleSession.mk (Some sessionId) (Some 0%nat) (Some 0%nat) (Some now)
                   (Some true) (Some now) (Some now) None None None [].

(** A freshly constructed service over a store that holds a new session and
    no message. *)
Definition freshWorld (sessionId : string) (now : Z) : World :=
  mkWorld (OracleService.mk true true 0 sessionId)
          (Some (mkStore [] (newSession sessionId now)))
          [].

(** ** The timer ([startOracle], [stopOracle])

    The event loop seen from the timer: [startOracle] suspends at its two
    [await]s after setting [isRunning] and installs the interval timer when
    it resumes; every firing of the timer runs the callback
    [async () => { try { await this.generateNextMessage() } catch ... }],
    which starts a tick and returns to the event loop at the tick's first
    [await]; the tick settles later. *)
Module Scheduler.

Record State := mkState {
  isRunning : bool;     (* this.isRunning *)
  interval : bool;      (* this.interval !== null *)
  timers : nat;         (* interval timers installed and not cleared *)
  starting : nat;       (* startOracle calls suspended before setInterval *)
  inFlight : nat        (* ticks started and not yet settled *)
}.

Definition initial : State := mkState false false 0 0 0.

Inductive Event :=
  | CallStart       (* startOracle() is called *)
  | ResumeStart     (* a suspended startOracle reaches setInterval *)
  | CallStop        (* stopOracle() *)
  | TimerFires      (* MESSAGE_INTERVAL has elapsed on a live timer *)
  | TickSettles.    (* the promise of a tick resolves *)

(** [None]: the event cannot happen in this state. *)
Definition step (e : Event) (s : State) : option State :=
  match e with
  | CallStart =>
      if isRunning s then Some s
      else Some (mkState true (interval s) (timers s) (S (starting s))
                         (inFlight s))
  | ResumeStart =>
      match starting s with
      | O => None
      | S k => Some (mkState (isRunning s) true (S (timers s)) k (inFlight s))
      end
  | CallStop =>
      Some (mkState false false
                    (if interval s then pred (timers s) else timers s)
                    (starting s) (inFlight s))
  | TimerFires =>
      match timers s with
      | O => None
      | S _ => Some (mkState (isRunning s) (interval s) (timers s)
                             (starting s) (S (inFlight s)))
      end
  | TickSettles =>
      match inFlight s with
      | O => None
      | S k => Some (mkState (isRunning s) (interval s) (timers s)
                             (starting s) k)
      end
  end.

Fixpoint run (trace : list Event) (s : State) : option State :=
  match trace with
  | [] => Some s
  | e :: rest =>
      match step e s with
      | Some s' => run rest s'
      | None => None
      end
  end.

(** The orchestrator started once: [startOracle] called and resumed. *)
Definition started : State := mkState true true 1 0 0.

(** "Two ticks never run concurrently": in no state the orchestrator can
    reach is more than one tick in flight. *)
Definition neverOverlap : Prop :=
  forall trace s, run trace initial = Some s -> (inFlight s <= 1)%nat.

End Scheduler.

(** ** Observations used in the statements *)

(** What a computation appends to the log. *)
Definition newLog {A} (c : M A) (w : World) : list LogEvent :=
  drop (length (log w)) (log (exec c w)).

Definition isLoopBreak (e : LogEvent) : bool :=
  match e with DbgLoopBreak _ => true | _ => false end.

Definition isSelfRespond (e : LogEvent) : bool :=
  match e with DbgSelfRespond _ _ => true | _ => false end.

(** The branch of [determineNextAgent] that was taken, read off the log line
    it writes. *)
Definition loopGuardTaken (recent : list OracleMessage.t) (now : Z) (draw : Q)
    (w : World) : bool :=
  existsb isLoopBreak (newLog (determineNextAgent recent now draw) w).

Definition selfResponseTaken (recent : list OracleMessage.t) (now : Z) (draw : Q)
    (w : World) : bool :=
  existsb isSelfRespond (newLog (determineNextAgent recent now draw) w).

(** The stored session and messages of a world ([absent] and [[]] when there
    is no database). *)
Definition storedSession (w : World) : OracleSession.t :=
  match db w with
  | Some st => session st
  | None => OracleSession.absent
  end.

Definition storedMessages (w : World) : list OracleMessage.t :=
  match db w with
  | Some st => messages st
  | None => []
  end.

(** The topic fields of a session. *)
Definition topicFields (s : OracleSession.t)
  : option string * option string * option Z * list string :=
  (OracleSession.currentTopic s, OracleSession.conversationTheme s,
   OracleSession.lastTopicChange s, OracleSession.topicHistory s).

(** Everything in a session but [lastAgentIndex], [messageCount],
    [lastMessageTime] and [updatedAt]. *)
Definition sessionFrame (s : OracleSession.t) :=
  (OracleSession.id s, OracleSession.isActive s, OracleSession.createdAt s,
   topicFields s).

(** [w'] differs from [w] at most in the four counters of the stored session
    and in the log. *)
Definition countersOnly (w w' : World) : Prop :=
  this w' = this w
  /\ (is_Some (db w') <-> is_Some (db w))
  /\ storedMessages w' = storedMessages w
  /\ sessionFrame (storedSession w') = sessionFrame (storedSession w).

(** The agent a tick selects in world [w]. *)
Definition chosenAgent (inp : TickInput) (w : World) : Agent :=
  eval (recentMessages ← getRecentMessages 8;
        determineNextAgent recentMessages (nowBefore inp) (selfDraw inp)) w.

(** The session [updateSession] leaves in the store: the four counters are
    written, [lastMessageTime] only when the argument has a timestamp. *)
Definition counted (self : OracleService.t) (arg : UpdateArg) (now : Z)
    (s : OracleSession.t) : OracleSession.t :=
  OracleSession.mk
    (OracleSession.id s)
    (Some (OracleService.lastAgentIndex self))
    (Some (default 0 (OracleSession.messageCount s) + 1)%nat)
    (Firebase.merge (SessionUpdate.dropUndefined (argTimestamp arg))
                    (OracleSession.lastMessageTime s))
    (OracleSession.isActive s) (OracleSession.createdAt s) (Some now)
    (OracleSession.currentTopic s) (OracleSession.conversationTheme s)
    (OracleSession.lastTopicChange s) (OracleSession.topicHistory s).

(** ** Sample data for the concrete runs below *)

Definition sampleSessionId : string := "oracle-session-2025".

Definition sampleMessage (a : Agent) (text : string) (timestamp : Z)
  : OracleMessage.t :=
  OracleMessage.mk (messageId timestamp "k3x9q2m7p") a text timestamp
                   TyMessage sampleSessionId.

(** A running service with rotation index [index] over a store with the
    given messages and session. *)
Definition sampleWorld (index : nat) (ms : list OracleMessage.t)
    (s : OracleSession.t) : World :=
  mkWorld (OracleService.mk true true index sampleSessionId)
          (Some (mkStore ms s)) [].

(** One message, from the analyzer. *)
Definition oneMessage : list OracleMessage.t :=
  [ sampleMessage analyzer "Liquidity is thin today." 1700000000000 ].

(** Three messages in a row from the predictor, with different texts. *)
Definition threeFromPredictor : list OracleMessage.t :=
  [ sampleMessage predictor "Volume will pick up." 1700000000000;
    sampleMessage predictor "Then again, it may stall." 1700000008000;
    sampleMessage predictor "Either way, watch the whales." 1700000016000 ].

(** Two messages from different agents. *)
Definition twoSpeakers : list OracleMessage.t :=
  [ sampleMessage analyzer "Liquidity is thin today." 1700000000000;
    sampleMessage predictor "Volume will pick up." 1700000008000 ].

(** A tick on which the generator answers with the empty string, and one on
    which it throws. *)
Definition emptyAnswer : TickInput :=
  mkTickInput 1700000000000 (1 # 2) (1 # 4) (Returns "")
              1700000001500 "k3x9q2m7p".

Definition failingCall : TickInput :=
  mkTickInput 1700000000000 (1 # 2) (1 # 4) Throws 1700000001500 "k3x9q2m7p".

(** Ticks eight seconds apart from a fresh session; on each the generator
    answers after 1.5 seconds with a text of its own, and the self-response
    draw is above the threshold. *)
Definition noteInput (k : nat) (text : string) : TickInput :=
  mkTickInput (1700000000000 + 8000 * Z.of_nat k) (1 # 2) (1 # 4)
              (Returns text)
              (1700000000000 + 8000 * Z.of_nat k + 1500)
              ("k3x9q2m7" ++ pretty k).

Definition nineTicks : list TickInput :=
  map (fun k => noteInput k ("Remark number " ++ pretty k ++ ".")) (seq 1 9).

Definition tenthTick : TickInput := noteInput 10 "The price found support.".

Definition startWorld : World := freshWorld sampleSessionId 1700000000000.

(** The world after nine ticks, and after the tenth. *)
Definition afterNine : World := exec (ticks nineTicks) startWorld.
Definition afterTen : World := exec (generateNextMessage tenthTick) afterNine.

(** Three messages with one and the same text, over a session whose topic is
    market_analysis. *)
Definition sameTextThrice : list OracleMessage.t :=
  [ sampleMessage analyzer "Volume is rising." 1700000000000;
    sampleMessage predictor "Volume is rising." 1700000008000;
    sampleMessage quantum_eraser "Volume is rising." 1700000016000 ].

Definition topicalSession : OracleSession.t :=
  OracleSession.mk (Some sampleSessionId) (Some 2%nat) (Some 3%nat)
                   (Some 1700000016000) (Some true) (Some 1699999990000)
                   (Some 1700000016000)
                   (Some "market_analysis") None (Some 1700000000000)
                   ["market_analysis"].

Definition repeatingWorld : World := sampleWorld 2 sameTextThrice topicalSession.

(** ** Further observations *)

(** The id under which a tick stores its message. *)
Definition tickId (inp : TickInput) : string :=
  messageId (nowAfter inp) (idDraw inp).

(** The text a tick stores: the generator's answer, or the fallback. *)
Definition tickText (inp : TickInput) (agent : Agent) : string :=
  match generated inp with
  | Throws => fallbackMessage agent
  | Returns response => orElse response (fallbackMessage agent)
  end.

(** A tick gets as far as the generator when there is a database and the
    session exists. *)
Definition reachesGenerator (w : World) : bool :=
  match db w with
  | Some st => negb (OracleSession.isNull (session st))
  | None => false
  end.

(** [session.messageCount || 0] of the stored session. *)
Definition sessionCount (s : OracleSession.t) : nat :=
  default 0%nat (OracleSession.messageCount s).

(** No agent holds four messages in a row. *)
Definition NoFourInARow (l : list Agent) : Prop :=
  forall front a back, l <> (front ++ [a; a; a; a] ++ back)%list.

(** ** [updateSession] in its two halves

    [updateSession] gives the control back twice: at
    [await this.getCurrentSession()] and at [await sessionRef.update(...)].
    What it writes is computed from what it read before the first of them,
    and other code can run in between. *)

(** Up to the first [await]: the database handle and the read of the
    session.  [None]: there is no database and the call has returned. *)
Definition updateSession_read : M (option (option OracleSession.t)) :=
  d ← getFirebaseDatabase;
  match d with
  | None =>
      _ ← logger (WarnNoDatabase "session not updated");
      mret None
  | Some _ =>
      currentSession ← getCurrentSession;
      mret (Some currentSession)
  end.

(** From the resumption on: [updateData] is built from the session that was
    read, with the rotation index and the clock of this moment, and written
    to the session node as it is stored at this moment. *)
Definition updateSession_write (arg : UpdateArg) (now : Z)
    (currentSession : option OracleSession.t) : M unit :=
  self ← getThis;
  let updateData :=
    SessionUpdate.mk
      (Val (OracleService.lastAgentIndex self))
      (Val (storedCount currentSession + 1)%nat)
      (argTimestamp arg)
      (Val now)
      Omitted Omitted Omitted Omitted in
  let updateData := SessionUpdate.deleteUndefinedKeys updateData in
  d ← getFirebaseDatabase;
  match d with
  | None => mret tt  (* not reached: the first half found the database *)
  | Some st =>
      match Firebase.update updateData (session st) with
      | Some s' => putStore (mkStore (messages st) s')
      | None => logger ErrUpdatingSession
      end
  end.

(** The second half of a call whose first half returned [read]. *)
Definition updateSession_resume (arg : UpdateArg) (now : Z)
    (read : option (option OracleSession.t)) : M unit :=
  match read with
  | None => mret tt
  | Some currentSession => updateSession_write arg now currentSession
  end.

(** Two calls one after the other, and two calls that have both read
    before either writes. *)
Definition updateSession_inTurn (arg1 arg2 : UpdateArg) (now1 now2 : Z)
  : M unit :=
  _ ← updateSession arg1 now1;
  updateSession arg2 now2.

Definition updateSession_overlapped (arg1 arg2 : UpdateArg) (now1 now2 : Z)
  : M unit :=
  read1 ← updateSession_read;
  read2 ← updateSession_read;
  _ ← updateSession_resume arg1 now1 read1;
  updateSession_resume arg2 now2 read2.

(** Two ticks over a new session whose messages are both saved before the
    two [updateSession] calls overlap. *)
Definition firstOfTwo : OracleMessage.t :=
  sampleMessage analyzer "The price found support." 1700000008000.

Definition secondOfTwo : OracleMessage.t :=
  sampleMessage analyzer "Volume is rising." 1700000016000.

Definition afterTwoOverlapped : World :=
  exec (_ ← saveMessage firstOfTwo;
        _ ← saveMessage secondOfTwo;
        updateSession_overlapped (OfMessage firstOfTwo) (OfMessage secondOfTwo)
          1700000008100 1700000016100)
       startWorld.

(** ** Public read access *)

(** The object [getConversationContext] resolves to. *)
Module ConversationContext.
Record t := mk {
  currentTopic : string;
  recentMessages : list OracleMessage.t;
  topicHistory : list string;
  messageCount : nat
}.
End ConversationContext.

(** [session?.currentTopic || 'general_market_discussion']: a missing topic
    and the empty string are falsy. *)
Definition topicOrDefault (session : option OracleSession.t) : string :=
  match session with
  | Some s =>
      match OracleSession.currentTopic s with
      | Some t => orElse t general_market_discussion
      | None => general_market_discussion
      end
  | None => general_market_discussion
  end.

(** [session?.topicHistory || []] *)
Definition historyOrEmpty (session : option OracleSession.t) : list string :=
  match session with
  | Some s => OracleSession.topicHistory s
  | None => []
  end.

Definition getConversationContext : M ConversationContext.t :=
  session ← getCurrentSession;
  recentMessages ← getRecentMessages 5;
  mret (ConversationContext.mk (topicOrDefault session) recentMessages
          (historyOrEmpty session) (storedCount session)).

(** [getMessages(limit)]: the last [limit] messages, newest first. *)
Definition getMessages (limit : nat) : M (list OracleMessage.t) :=
  d ← getFirebaseDatabase;
  match d with
  | None =>
      _ ← logger (WarnNoDatabase "returning empty messages");
      mret []
  | Some st => mret (rev (Firebase.limitToLast limit (messages st)))
  end.

(** ** Prompt topics drawn at random *)

Definition initialTopics : list string :=
  [ "Analyze the current state of decentralized finance and emerging token ecosystems";
    "Discuss the impact of market volatility on new token launches and investor behavior";
    "Examine the role of community sentiment in driving token adoption and price discovery";
    "Explore the challenges of identifying genuine utility versus speculative hype in new projects";
    "Debate the effectiveness of different tokenomics models in creating sustainable value";
    "Investigate the relationship between on-chain metrics and long-term project viability" ].

Definition marketTopics : list string :=
  [ "Current DeFi landscape and emerging opportunities";
    "Token holder behavior patterns and market manipulation risks";
    "Technical analysis of key support and resistance levels";
    "Fundamental analysis of project utility and adoption potential";
    "Market sentiment indicators and fear/greed dynamics";
    "Risk assessment of new token launches and investment strategies";
    "Future outlook for blockchain innovation and token ecosystems" ].

(** [xs[Math.floor(Math.random() * xs.length)]] inside a template literal:
    a missing element is written as "undefined". *)
Definition randomElement (xs : list string) (draw : Q) : string :=
  default "undefined" (xs !! randomIndex draw (length xs)).

Definition getInitialTopicPrompt (draw : Q) : string :=
  "Begin a new oracle conversation about: " ++ randomElement initialTopics draw.

Definition getCurrentTopicPrompt (draw : Q) : string :=
  "Current Focus: " ++ randomElement marketTopics draw.

(** ** Session set-up *)

(** The constructor: the fields at their initial values, and the session
    id of the year in which the object is made,
    [`oracle-session-${new Date().getFullYear()}`]. *)
Definition construct (year : Z) : OracleService.t :=
  OracleService.mk false false 0 ("oracle-session-" ++ pretty year).

(** The world of a service object made in [year] by a new process, over the
    database an earlier object left behind.  The messages are one
    collection for all sessions.  The session node is the one at the
    object's own id: the old object's node when the ids are the same, and
    otherwise another node of the database, [other]. *)
Definition restarted (year : Z) (other : OracleSession.t) (w : World)
  : World :=
  let service := construct year in
  mkWorld service
    (match db w with
     | Some st =>
         Some (mkStore (messages st)
                 (if decide (OracleService.sessionId service
                             = OracleService.sessionId (this w))
                  then session st else other))
     | None => None
     end)
    [].

(** [initializeSession]: a stored session gives the service its rotation
    index, a missing one is created; without a database nothing happens.
    The function's log lines are left out.  [None]: the stored session has
    no [lastAgentIndex], so the service's index would become [undefined],
    which is no value of the index here. *)
Definition initializeSession (now : Z) (w : World) : option World :=
  match db w with
  | None => Some w
  | Some st =>
      if OracleSession.isNull (session st) then
        (* !snapshot.exists(): sessionRef.set(newSession) *)
        Some (mkWorld (this w)
                (Some (mkStore (messages st)
                         (newSession (OracleService.sessionId (this w)) now)))
                (log w))
      else
        match OracleSession.lastAgentIndex (session st) with
        | Some i => Some (exec (setLastAgentIndex i) w)
        | None => None
        end
  end.

(** ** Conversation analysis *)

(** [[...new Set(xs)]]: the elements of [xs] in the order of their first
    occurrence; [seen] holds the elements already in the set. *)
Fixpoint setOrder (seen xs : list string) : list string :=
  match xs with
  | [] => []
  | x :: r =>
      if bool_decide (x ∈ seen) then setOrder seen r
      else x :: setOrder (x :: seen) r
  end.

(** [messages.forEach(msg => topics.push(...this.extractTopics(msg.message)));
     return [...new Set(topics)]] *)
Definition extractTopicsFromMessages (messages : list OracleMessage.t)
  : list string :=
  setOrder []
    (concat (map (fun msg => extractTopics (OracleMessage.message msg))
                 messages)).

(** The "Current topic" of [analyzeConversationFlow]:
    [topics[topics.length - 1] || 'general discussion'] *)
Definition flowCurrentTopic (recentMessages : list OracleMessage.t) : string :=
  match last (extractTopicsFromMessages recentMessages) with
  | Some topic => orElse topic "general discussion"
  | None => "general discussion"
  end.

(** Every label [extractTopics] can return. *)
Definition topicLabels : list string :=
  (map fst topicKeywords ++ [general_market_discussion])%list.

(** ** The timer, used in sequence *)

(** A state of the scheduler between calls: no [startOracle] is suspended,
    the timer handle is set exactly while the service runs, and one timer
    is live then and none otherwise. *)
Definition settled (s : Scheduler.State) : Prop :=
  Scheduler.starting s = 0%nat
  /\ Scheduler.interval s = Scheduler.isRunning s
  /\ Scheduler.timers s = if Scheduler.isRunning s then 1%nat else 0%nat.

(** [startOracle] run to its end with nothing happening in between: the
    call, and the resumption when the call went past its guard. *)
Definition startOracle (s : Scheduler.State) : option Scheduler.State :=
  if Scheduler.isRunning s then Scheduler.step Scheduler.CallStart s
  else Scheduler.run [Scheduler.CallStart; Scheduler.ResumeStart] s.

(** [stopOracle] is one step. *)
Definition stopOracle (s : Scheduler.State) : option Scheduler.State :=
  Scheduler.step Scheduler.CallStop s.

(** ** Digits *)

Definition isDigit (c : ascii) : bool :=
  let n := nat_of_ascii c in (48 <=? n)%nat && (n <=? 57)%nat.

Fixpoint allDigits (s : string) : bool :=
  match s with
  | EmptyString => true
  | String c r => isDigit c && allDigits r
  end.

(** ** Conversation state and stage *)

Inductive ConversationState :=
  | opening
  | developing
  | deep_discussion
  | extended_debate.

(** [let state = 'opening'; if (messageCount > 2) state = 'developing';
    if (messageCount > 6) ...; if (messageCount > 12) ...] *)
Definition conversationState (recentMessages : list OracleMessage.t)
  : ConversationState :=
  let messageCount := length recentMessages in
  let state := opening in
  let state := if (2 <? messageCount)%nat then developing else state in
  let state := if (6 <? messageCount)%nat then deep_discussion else state in
  let state := if (12 <? messageCount)%nat then extended_debate else state in
  state.

(** The "Discussion stage" line of [analyzeConversationFlow]; the same
    thresholds select the text of [getContinuityInstructions]. *)
Inductive Stage :=
  | Opening
  | Developing
  | DeepDiscussion.

Definition discussionStage (recentMessages : list OracleMessage.t) : Stage :=
  let messageCount := length recentMessages in
  if (messageCount <? 3)%nat then Opening
  else if (messageCount <? 8)%nat then Developing
  else DeepDiscussion.

(** The table of [getTaskForAgent]: a row for each of the four oracle
    agents, none for [system]. *)
Definition tasks (agent : Agent) : option (ConversationState -> string) :=
  match agent with
  | analyzer => Some (fun state =>
      match state with
      | opening =>
          "Start with technical analysis of current token metrics"
      | developing =>
          "Build on previous analysis with deeper technical insights"
      | deep_discussion =>
          "Provide sophisticated technical analysis and challenge assumptions"
      | extended_debate =>
          "Synthesize previous discussions and provide comprehensive analysis"
      end)
  | predictor => Some (fun state =>
      match state with
      | opening =>
          "Make initial predictions based on current market conditions"
      | developing =>
          "Refine predictions based on new information and discussion"
      | deep_discussion =>
          "Provide detailed scenario analysis and risk assessment"
      | extended_debate =>
          "Synthesize multiple perspectives into actionable predictions"
      end)
  | quantum_eraser => Some (fun state =>
      match state with
      | opening =>
          "Challenge initial assumptions and provide alternative perspectives"
      | developing =>
          "Question established patterns and explore unconventional angles"
      | deep_discussion =>
          "Provide critical analysis and reveal hidden truths"
      | extended_debate =>
          "Synthesize contradictions and provide philosophical insights"
      end)
  | retrocausal => Some (fun state =>
      match state with
      | opening =>
          "Examine historical patterns and their implications"
      | developing =>
          "Connect past events to current market conditions"
      | deep_discussion =>
          "Provide strategic insights based on historical analysis"
      | extended_debate =>
          "Synthesize historical patterns into future strategies"
      end)
  | system => None
  end.

(** [tasks[agent] || tasks['analyzer']], then the row at the state.  The
    state is always one of the four keys of a row, so the second [||] of
    the source is not reached. *)
Definition getTaskForAgent (agent : Agent) (state : ConversationState)
  : string :=
  let agentTasks :=
    match tasks agent with
    | Some row => row
    | None => default (fun _ => EmptyString) (tasks analyzer)
    end in
  agentTasks state.

(** ** The most active agent *)

(** [acc[msg.agent] = (acc[msg.agent] || 0) + 1] on an object whose keys
    keep their insertion order. *)
Fixpoint bump (a : Agent) (acc : list (Agent * nat)) : list (Agent * nat) :=
  match acc with
  | [] => [(a, 1%nat)]
  | (b, n) :: rest =>
      if Agent_eq_dec a b then (b, S n) :: rest else (b, n) :: bump a rest
  end.

Definition agentCounts (recentMessages : list OracleMessage.t)
  : list (Agent * nat) :=
  fold_left (fun acc msg => bump (OracleMessage.agent msg) acc)
            recentMessages [].

(** [Object.entries(agentCounts).reduce((a, b) => a[1] > b[1] ? a : b,
    ['', 0])]; [None] is the empty name of the initial pair. *)
Definition mostActiveAgent (recentMessages : list OracleMessage.t)
  : option Agent * nat :=
  fold_left (fun a b => if (snd b <? snd a)%nat then a
                        else (Some (fst b), snd b))
            (agentCounts recentMessages) (None, 0%nat).

Definition messagesOf (a : Agent) (recentMessages : list OracleMessage.t)
  : nat :=
  length (filter (fun msg => OracleMessage.agent msg = a) recentMessages).

(** ** Numbering of the visible messages *)

(** [recentMessages.length - 5 + index + 1] *)
Definition messageNumber (recentMessages : list OracleMessage.t)
    (index : nat) : Z :=
  Z.of_nat (length recentMessages) - 5 + Z.of_nat index + 1.

(** [recentMessages.slice(-5).map((msg, index) => ...)]: each visible
    message with the number it is given. *)
Definition conversationFlow (recentMessages : list OracleMessage.t)
  : list (Z * OracleMessage.t) :=
  imap (fun index msg => (messageNumber recentMessages index, msg))
       (Js.slice_last 5 recentMessages).

(** The count an object of counts holds for a key (0 when the key is
    missing). *)
Definition countAt (a : Agent) (acc : list (Agent * nat)) : nat :=
  list_sum (map snd (filter (fun e => fst e = a) acc)).

Definition fourMessages : list OracleMessage.t :=
  [sampleMessage analyzer "The price found support." 1000;
   sampleMessage predictor "Volume is rising." 9000;
   sampleMessage quantum_eraser "Is the trend real?" 17000;
   sampleMessage retrocausal "History rhymes." 25000].

(** * Properties *)

Local Open Scope list_scope.

(** ** Topic extractor *)





(** The topics found are the categories of the table one of whose keywords
    occurs in the lower-cased text, in table order. *)
Lemma elem_of_foundTopics (lower topic : string) :
  In topic (foundTopics lower) <->
  exists keywords,
    In (topic, keywords) topicKeywords /\ matchesAny lower keywords = true.
Proof.
  unfold foundTopics. rewrite in_map_iff. split.
  - intros [[t kws] [Heq Hin]]. simpl in Heq. subst t.
    apply list_elem_of_In, list_elem_of_filter in Hin. destruct Hin as [Hm Hin].
    exists kws. split; [now apply list_elem_of_In | exact Hm].
  - intros [kws [Hin Hm]]. exists (topic, kws). split; [reflexivity|].
    apply list_elem_of_In, list_elem_of_filter. split; [exact Hm|].
    now apply list_elem_of_In.
Qed.
















(** The extractor run on texts in mixed case, on a text without keyword and
    on a keyword of two words. *)
Example extractTopics_examples :
  extractTopics "The MARKET shows Fear."
  = ["market_analysis"; "market_sentiment"]
  /\ extractTopics "WHALES watch Support Levels; no Use Case yet"
     = ["holder_behavior"; "technical_analysis"; "fundamentals"]
  /\ extractTopics "Hello there." = [general_market_discussion]
  /\ extractTopics "" = [general_market_discussion]
  /\ extractTopics "risky" = ["risk_assessment"].
Proof. vm_compute. repeat split. Qed.

(** ** Session bookkeeping *)

Ltac run_m :=
  cbv beta iota zeta delta
    [mbind M_bind mret M_ret exec eval getFirebaseDatabase getThis putStore
     logger setLastAgentIndex db this log fst snd].

Lemma storedCount_val (s : OracleSession.t) :
  storedCount (if OracleSession.isNull s then None else Some s)
  = default 0%nat (OracleSession.messageCount s).
Proof.
  destruct s as [i la mc lt ia ca ua ct th lc hist].
  destruct (OracleSession.isNull _) eqn:E; [|reflexivity].
  destruct mc as [n|]; [|reflexivity].
  destruct i, la; discriminate E.
Qed.

(** With a database, [updateSession] is one read-modify-write of the four
    counters; the argument contributes its timestamp and nothing else. *)
Lemma updateSession_run arg now th st lg :
  updateSession arg now (mkWorld th (Some st) lg)
  = (tt, mkWorld th
           (Some (mkStore (messages st) (counted th arg now (session st)))) lg).
Proof.
  unfold updateSession, getCurrentSession. run_m.
  rewrite storedCount_val.
  destruct arg; reflexivity.
Qed.

Lemma updateSession_run_nodb arg now th lg :
  updateSession arg now (mkWorld th None lg)
  = (tt, mkWorld th None (lg ++ [WarnNoDatabase "session not updated"])).
Proof. reflexivity. Qed.

Lemma countersOnly_refl w : countersOnly w w.
Proof. unfold countersOnly. tauto. Qed.

Lemma countersOnly_trans w1 w2 w3 :
  countersOnly w1 w2 -> countersOnly w2 w3 -> countersOnly w1 w3.
Proof.
  unfold countersOnly. intros (A1 & B1 & C1 & D1) (A2 & B2 & C2 & D2).
  repeat split; try congruence; tauto.
Qed.

Lemma countersOnly_log w e :
  countersOnly w (mkWorld (this w) (db w) (log w ++ e)).
Proof. unfold countersOnly, storedMessages, storedSession. simpl. tauto. Qed.

Lemma updateSession_countersOnly arg now w :
  countersOnly w (exec (updateSession arg now) w).
Proof.
  destruct w as [th [st|] lg]; unfold exec.
  - rewrite updateSession_run.
    unfold countersOnly, storedMessages, storedSession; simpl.
    repeat split; auto.
  - rewrite updateSession_run_nodb. apply (countersOnly_log (mkWorld th None lg)).
Qed.

Lemma setConversationTopic_countersOnly topic now w :
  countersOnly w (exec (setConversationTopic topic now) w).
Proof.
  destruct w as [th [st|] lg]; unfold exec, setConversationTopic, getCurrentSession;
    run_m.
  - destruct (OracleSession.isNull (session st)); [apply countersOnly_refl|].
    rewrite updateSession_run.
    unfold countersOnly, storedMessages, storedSession; simpl.
    repeat split; auto.
  - apply (countersOnly_log (mkWorld th None lg)).
Qed.

Lemma updateConversationTopic_countersOnly m now w :
  countersOnly w (exec (updateConversationTopic m now) w).
Proof.
  destruct w as [th [st|] lg];
    unfold exec, updateConversationTopic, getCurrentSession; run_m.
  - destruct (OracleSession.isNull (session st)); [apply countersOnly_refl|].
    destruct (extractTopics (OracleMessage.message m)) as [|newTopic rest];
      [apply countersOnly_refl|].
    destruct (shouldChangeTopic (session st) now); [|apply countersOnly_refl].
    rewrite updateSession_run.
    unfold countersOnly, storedMessages, storedSession; simpl.
    repeat split; auto.
  - apply (countersOnly_log (mkWorld th None lg)).
Qed.

(** The history handed over with a new topic holds at most five entries,
    the new topic last. *)
Lemma pushTopic_length (topicHistory : list string) (topic : string) :
  (length (pushTopic topicHistory topic) <= 5)%nat
  /\ last (pushTopic topicHistory topic) = Some topic.
Proof.
  unfold pushTopic, Js.slice_last. split.
  - rewrite length_app, length_drop. simpl. lia.
  - apply last_snoc.
Qed.

(** C10. Frame of [updateSession]: whatever its argument holds (a message,
    or a session object carrying new topic fields), a call changes nothing
    in the world but the log and, in the stored session, [lastAgentIndex],
    [messageCount], [lastMessageTime] and [updatedAt]; [currentTopic],
    [conversationTheme], [lastTopicChange] and [topicHistory] (and [id],
    [isActive], [createdAt], the messages and the service object) are as
    before.  The same holds for the calls made through
    [setConversationTopic] and [updateConversationTopic], which pass the new
    topic fields in the argument. *)
Theorem updateSession_frame (arg : UpdateArg) (topic : string)
    (newMessage : OracleMessage.t) (now : Z) (w : World) :
  countersOnly w (exec (updateSession arg now) w)
  /\ topicFields (storedSession (exec (updateSession arg now) w))
     = topicFields (storedSession w)
  /\ topicFields (storedSession (exec (setConversationTopic topic now) w))
     = topicFields (storedSession w)
  /\ topicFields (storedSession (exec (updateConversationTopic newMessage now) w))
     = topicFields (storedSession w).
Proof.
  pose proof (updateSession_countersOnly arg now w) as H1.
  pose proof (setConversationTopic_countersOnly topic now w) as H2.
  pose proof (updateConversationTopic_countersOnly newMessage now w) as H3.
  split; [exact H1|].
  destruct H1 as (_ & _ & _ & D1), H2 as (_ & _ & _ & D2),
    H3 as (_ & _ & _ & D3).
  unfold sessionFrame in *.
  repeat split; congruence.
Qed.

(** ** Agent selector *)

(** The world after a rotation of the index. *)
Lemma rotate_run (w : World) :
  rotate w
  = let next := ((OracleService.lastAgentIndex (this w) + 1) mod 4)%nat in
    (agentAt next, exec (setLastAgentIndex next) w).
Proof. reflexivity. Qed.

(** Every index the rotation computes is an index of the roster. *)
Lemma agents_in_range (i : nat) :
  agents !! ((i + 1) mod length agents)%nat = Some (agentAt ((i + 1) mod 4)).
Proof.
  unfold agentAt. simpl length.
  assert (H : ((i + 1) mod 4 < 4)%nat) by (apply Nat.mod_upper_bound; lia).
  destruct ((i + 1) mod 4)%nat as [|[|[|[|k]]]]; try reflexivity; lia.
Qed.

Lemma newLog_same {A} (c : M A) (w : World) :
  log (exec c w) = log w -> newLog c w = [].
Proof. unfold newLog. intros ->. apply drop_all. Qed.

Lemma newLog_app {A} (c : M A) (w : World) (es : list LogEvent) :
  log (exec c w) = log w ++ es -> newLog c w = es.
Proof. unfold newLog. intros ->. now rewrite drop_app_length. Qed.

Lemma secondsSince_lt_60 (now timestamp : Z) :
  (secondsSince now timestamp <? 60) = true <-> now - timestamp < 60000.
Proof.
  unfold secondsSince. rewrite Z.ltb_lt.
  pose proof (Z.div_mod (now - timestamp) 1000 ltac:(lia)) as Hd.
  pose proof (Z.mod_pos_bound (now - timestamp) 1000 ltac:(lia)) as Hm.
  split; lia.
Qed.

Lemma Qltb_lt (x y : Q) : Qltb x y = true <-> (x < y)%Q.
Proof.
  unfold Qltb. rewrite negb_true_iff. split.
  - intros H. apply Qnot_le_lt. intros Hle.
    apply Qle_bool_iff in Hle. congruence.
  - intros H. destruct (Qle_bool y x) eqn:E; [|reflexivity].
    apply Qle_bool_iff in E. exfalso. exact (Qlt_not_le _ _ H E).
Qed.

Lemma shouldSelfRespond_iff (now timestamp : Z) (draw : Q) :
  shouldSelfRespond (secondsSince now timestamp) draw = true <->
  now - timestamp < 60000 /\ (draw < selfResponseChance)%Q.
Proof.
  unfold shouldSelfRespond.
  now rewrite andb_true_iff, secondsSince_lt_60, Qltb_lt.
Qed.

(** The three branches of [determineNextAgent] on a history that is not
    empty, as one equation. *)
Lemma determineNextAgent_run recent lastMessage now draw (w : World) :
  last recent = Some lastMessage ->
  determineNextAgent recent now draw w
  = let lastAgent := OracleMessage.agent lastMessage in
    let secs := secondsSince now (OracleMessage.timestamp lastMessage) in
    let next := ((OracleService.lastAgentIndex (this w) + 1) mod 4)%nat in
    if isLooping recent lastAgent then
      (agentAt next,
       exec (setLastAgentIndex next)
            (mkWorld (this w) (db w) (log w ++ [DbgLoopBreak lastAgent])))
    else if shouldSelfRespond secs draw then
      (lastAgent,
       mkWorld (this w) (db w) (log w ++ [DbgSelfRespond lastAgent secs]))
    else (agentAt next, exec (setLastAgentIndex next) w).
Proof.
  intros Hlast. unfold determineNextAgent. rewrite Hlast. cbv zeta.
  destruct (isLooping _ _); [reflexivity|].
  destruct (shouldSelfRespond _ _); [reflexivity|].
  destruct w; reflexivity.
Qed.

Lemma selfResponseTaken_iff recent lastMessage now draw (w : World) :
  last recent = Some lastMessage ->
  selfResponseTaken recent now draw w = true <->
  isLooping recent (OracleMessage.agent lastMessage) = false
  /\ shouldSelfRespond
       (secondsSince now (OracleMessage.timestamp lastMessage)) draw = true.
Proof.
  intros Hlast. unfold selfResponseTaken.
  destruct (isLooping recent (OracleMessage.agent lastMessage)) eqn:Hloop;
    [|destruct (shouldSelfRespond _ draw) eqn:Hself].
  - rewrite (newLog_app _ w [DbgLoopBreak (OracleMessage.agent lastMessage)]).
    + simpl. split; [discriminate|intros [? _]; discriminate].
    + unfold exec. rewrite (determineNextAgent_run _ _ _ _ _ Hlast).
      cbv zeta. rewrite Hloop. reflexivity.
  - rewrite (newLog_app _ w
               [DbgSelfRespond (OracleMessage.agent lastMessage)
                  (secondsSince now (OracleMessage.timestamp lastMessage))]).
    + simpl. tauto.
    + unfold exec. rewrite (determineNextAgent_run _ _ _ _ _ Hlast).
      cbv zeta. rewrite Hloop, Hself. reflexivity.
  - rewrite newLog_same.
    + simpl. split; [discriminate|intros [_ ?]; discriminate].
    + unfold exec. rewrite (determineNextAgent_run _ _ _ _ _ Hlast).
      cbv zeta. rewrite Hloop, Hself. reflexivity.
Qed.

Lemma loopGuardTaken_iff recent lastMessage now draw (w : World) :
  last recent = Some lastMessage ->
  loopGuardTaken recent now draw w = true <->
  isLooping recent (OracleMessage.agent lastMessage) = true.
Proof.
  intros Hlast. unfold loopGuardTaken.
  destruct (isLooping recent (OracleMessage.agent lastMessage)) eqn:Hloop;
    [|destruct (shouldSelfRespond
                  (secondsSince now (OracleMessage.timestamp lastMessage))
                  draw) eqn:Hself].
  - rewrite (newLog_app _ w [DbgLoopBreak (OracleMessage.agent lastMessage)]).
    + simpl. tauto.
    + unfold exec. rewrite (determineNextAgent_run _ _ _ _ _ Hlast).
      cbv zeta. rewrite Hloop. reflexivity.
  - rewrite (newLog_app _ w
               [DbgSelfRespond (OracleMessage.agent lastMessage)
                  (secondsSince now (OracleMessage.timestamp lastMessage))]).
    + simpl. split; discriminate.
    + unfold exec. rewrite (determineNextAgent_run _ _ _ _ _ Hlast).
      cbv zeta. rewrite Hloop, Hself. reflexivity.
  - rewrite newLog_same.
    + simpl. split; discriminate.
    + unfold exec. rewrite (determineNextAgent_run _ _ _ _ _ Hlast).
      cbv zeta. rewrite Hloop, Hself. reflexivity.
Qed.

(** C5. Self-response.  For a history that is not empty, with [elapsed] the
    milliseconds between the last message and now: the self-response branch
    is taken exactly when the loop guard does not fire, [elapsed] is under
    60 seconds and the draw is below 0.15; when it is taken the selector
    returns the last message's agent and leaves the service object (the
    rotation index with it) and the store as they were; and when [elapsed]
    is 60 seconds or more the branch is not taken, whatever the draw. *)
Theorem selfResponse_spec (recent : list OracleMessage.t)
    (lastMessage : OracleMessage.t) (now : Z) (draw : Q) (w : World) :
  last recent = Some lastMessage ->
  let elapsed := now - OracleMessage.timestamp lastMessage in
  let w' := exec (determineNextAgent recent now draw) w in
  (selfResponseTaken recent now draw w = true <->
     isLooping recent (OracleMessage.agent lastMessage) = false
     /\ elapsed < 60000 /\ (draw < selfResponseChance)%Q)
  /\ (selfResponseTaken recent now draw w = true ->
        elapsed < 60000
        /\ eval (determineNextAgent recent now draw) w
           = OracleMessage.agent lastMessage
        /\ this w' = this w
        /\ OracleService.lastAgentIndex (this w')
           = OracleService.lastAgentIndex (this w)
        /\ db w' = db w)
  /\ (60000 <= elapsed -> selfResponseTaken recent now draw w = false).
Proof.
  intros Hlast elapsed w'.
  pose proof (selfResponseTaken_iff recent lastMessage now draw w Hlast) as Hiff.
  rewrite shouldSelfRespond_iff in Hiff. fold elapsed in Hiff.
  split; [exact Hiff|]. split.
  - intros Htaken. apply Hiff in Htaken. destruct Htaken as (Hloop & Hel & Hdraw).
    assert (Hself : shouldSelfRespond
                      (secondsSince now (OracleMessage.timestamp lastMessage))
                      draw = true) by (apply shouldSelfRespond_iff; auto).
    subst w'. unfold eval, exec.
    rewrite (determineNextAgent_run _ _ _ _ _ Hlast). cbv zeta.
    rewrite Hloop, Hself. simpl. auto.
  - intros Hlate. apply not_true_is_false. intros E.
    apply Hiff in E. lia.
Qed.

Lemma selfResponse_spec_witness :
  selfResponseTaken twoSpeakers 1700000013000 (1 # 10)
    (sampleWorld 1 twoSpeakers (newSession sampleSessionId 1699999990000))
  = true
  /\ eval (determineNextAgent twoSpeakers 1700000013000 (1 # 10))
       (sampleWorld 1 twoSpeakers (newSession sampleSessionId 1699999990000))
     = predictor.
Proof.
  destruct (selfResponse_spec twoSpeakers
              (sampleMessage predictor "Volume will pick up." 1700000008000)
              1700000013000 (1 # 10)
              (sampleWorld 1 twoSpeakers (newSession sampleSessionId 1699999990000))
              eq_refl) as (Hiff & Hres & _).
  assert (Htaken : selfResponseTaken twoSpeakers 1700000013000 (1 # 10)
            (sampleWorld 1 twoSpeakers (newSession sampleSessionId 1699999990000))
          = true).
  { apply Hiff. repeat split; vm_compute; reflexivity. }
  split; [exact Htaken|]. exact (proj1 (proj2 (Hres Htaken))).
Defined.

(** The loop guard returns the next agent of the roster and stores the
    incremented index. *)
Lemma loopGuard_result recent lastMessage now draw (w : World) :
  last recent = Some lastMessage ->
  loopGuardTaken recent now draw w = true ->
  let next := ((OracleService.lastAgentIndex (this w) + 1) mod 4)%nat in
  agents !! next = Some (eval (determineNextAgent recent now draw) w)
  /\ OracleService.lastAgentIndex (this (exec (determineNextAgent recent now draw) w))
     = next.
Proof.
  intros Hlast Htaken next.
  apply (loopGuardTaken_iff _ _ _ _ _ Hlast) in Htaken.
  unfold eval, exec. rewrite (determineNextAgent_run _ _ _ _ _ Hlast).
  cbv zeta. rewrite Htaken. simpl. split; [|reflexivity].
  apply (agents_in_range (OracleService.lastAgentIndex (this w))).
Qed.

(** On a history of three or more messages the guard fires exactly when the
    last three are from one agent. *)
Lemma loopGuard_last_three front m1 m2 m3 now draw (w : World) :
  loopGuardTaken (front ++ [m1; m2; m3]) now draw w = true <->
  OracleMessage.agent m1 = OracleMessage.agent m3
  /\ OracleMessage.agent m2 = OracleMessage.agent m3.
Proof.
  assert (Hlast : last (front ++ [m1; m2; m3]) = Some m3).
  { change [m1; m2; m3] with ([m1; m2] ++ [m3]). rewrite app_assoc.
    apply last_snoc. }
  rewrite (loopGuardTaken_iff _ _ _ _ _ Hlast).
  unfold isLooping, Js.slice_last, Js.every.
  rewrite length_app. simpl length.
  replace (length front + 3 - 3)%nat with (length front) by lia.
  rewrite drop_app_length. simpl.
  rewrite !andb_true_iff, !bool_decide_eq_true. tauto.
Qed.

(** When the rotation index is the index of the agent that spoke last, the
    rotated agent is another one. *)
Lemma rotation_changes_agent (i : nat) (lastAgent : Agent) :
  agents !! i = Some lastAgent -> agentAt ((i + 1) mod 4) <> lastAgent.
Proof.
  destruct i as [|[|[|[|k]]]]; simpl; intros H; inversion H; subst;
    discriminate.
Qed.

(** The guard fires on every history of one message. *)
Lemma loopGuard_single m now draw (w : World) :
  loopGuardTaken [m] now draw w = true.
Proof.
  apply (loopGuardTaken_iff [m] m); [reflexivity|].
  unfold isLooping. simpl. now rewrite bool_decide_eq_true_2.
Qed.

(** C4, the code at two inputs.  With a single message in the history the
    loop-guard branch is taken (the history is shorter than 3); with three
    messages in a row from the predictor and the rotation index at 0 (a
    fresh service over stored messages) the guard returns the predictor
    again. *)
Theorem loopGuard_runs :
  let w1 := sampleWorld 0 oneMessage (newSession sampleSessionId 1699999990000) in
  let w3 := sampleWorld 0 threeFromPredictor
                        (newSession sampleSessionId 1699999990000) in
  (length oneMessage = 1%nat
   /\ loopGuardTaken oneMessage 1700000008000 (1 # 2) w1 = true
   /\ newLog (determineNextAgent oneMessage 1700000008000 (1 # 2)) w1
      = [DbgLoopBreak analyzer])
  /\ (map OracleMessage.agent threeFromPredictor = [predictor; predictor; predictor]
      /\ loopGuardTaken threeFromPredictor 1700000024000 (1 # 2) w3 = true
      /\ eval (determineNextAgent threeFromPredictor 1700000024000 (1 # 2)) w3
         = predictor).
Proof. vm_compute. repeat split. Qed.

(** ** The tick *)

Lemma determineNextAgent_keeps recent now draw (w : World) :
  let w' := exec (determineNextAgent recent now draw) w in
  db w' = db w
  /\ OracleService.interval (this w') = OracleService.interval (this w)
  /\ OracleService.isRunning (this w') = OracleService.isRunning (this w)
  /\ OracleService.sessionId (this w') = OracleService.sessionId (this w).
Proof.
  unfold determineNextAgent, exec.
  destruct (last recent) as [lastMessage|]; [|now destruct w].
  destruct (isLooping _ _); [now destruct w|].
  destruct (shouldSelfRespond _ _); now destruct w.
Qed.

Lemma forceTopicChange_countersOnly draw now w :
  countersOnly w (exec (forceTopicChange draw now) w).
Proof.
  unfold forceTopicChange, exec. run_m.
  pose proof (setConversationTopic_countersOnly
                (default "" (newTopics !! randomIndex draw (length newTopics)))
                now w) as H.
  unfold exec in H.
  destruct (setConversationTopic _ now w) as [u w1]. simpl in *.
  eapply countersOnly_trans; [exact H|]. apply countersOnly_log.
Qed.

Lemma buildEnhancedContext_countersOnly recent agent draw now w :
  countersOnly w (exec (buildEnhancedContext recent agent draw now) w).
Proof.
  unfold buildEnhancedContext.
  destruct recent as [|m r]; [apply countersOnly_refl|].
  destruct (isRepeating (m :: r)); [|apply countersOnly_refl].
  unfold exec. run_m.
  eapply countersOnly_trans;
    [apply (countersOnly_log w [DbgRepetition])|].
  apply forceTopicChange_countersOnly.
Qed.

Lemma Firebase_set_In m ms : In m (Firebase.set m ms).
Proof.
  induction ms as [|x r IH]; simpl; [now left|].
  destruct (bool_decide _); simpl; auto.
Qed.

Lemma fallback_names_agent a :
  Js.includes (fallbackMessage a) (agentName a) = true.
Proof. destruct a; vm_compute; reflexivity. Qed.

Lemma fallback_not_empty a : fallbackMessage a <> "".
Proof. destruct a; discriminate. Qed.

Lemma generateContextualResponse_spec agent recent inp (w : World) :
  let m := eval (generateContextualResponse agent recent inp) w in
  let w' := exec (generateContextualResponse agent recent inp) w in
  countersOnly w w'
  /\ OracleMessage.id m = messageId (nowAfter inp) (idDraw inp)
  /\ OracleMessage.agent m = agent
  /\ OracleMessage.timestamp m = nowAfter inp
  /\ OracleMessage.message m
     = match generated inp with
       | Throws => fallbackMessage agent
       | Returns response => orElse response (fallbackMessage agent)
       end.
Proof.
  unfold generateContextualResponse, eval, exec. run_m.
  pose proof (buildEnhancedContext_countersOnly recent agent (topicDraw inp)
                (nowBefore inp) w) as H.
  unfold exec in H.
  destruct (buildEnhancedContext _ _ _ _ w) as [u w1]. simpl in H.
  destruct (generated inp); simpl.
  - split; [|auto].
    eapply countersOnly_trans; [exact H|].
    apply (countersOnly_log w1 [ErrContextualResponse]).
  - split; [exact H|auto].
Qed.

Lemma saveMessage_run m th st lg :
  saveMessage m (mkWorld th (Some st) lg)
  = (tt, mkWorld th (Some (mkStore (Firebase.set m (messages st)) (session st))) lg).
Proof. reflexivity. Qed.


Lemma exec_bind {A B} (c : M A) (f : A -> M B) (w : World) :
  exec (c ≫= f) w = exec (f (eval c w)) (exec c w).
Proof. unfold exec, eval, mbind, M_bind. now destruct (c w). Qed.

Lemma eval_bind {A B} (c : M A) (f : A -> M B) (w : World) :
  eval (c ≫= f) w = eval (f (eval c w)) (exec c w).
Proof. unfold exec, eval, mbind, M_bind. now destruct (c w). Qed.

Lemma getCurrentSession_some (w : World) (st : Store) :
  db w = Some st -> OracleSession.isNull (session st) = false ->
  getCurrentSession w = (Some (session st), w).
Proof.
  intros Hdb Hs. unfold getCurrentSession. run_m. destruct w; simpl in *.
  subst. now rewrite Hs.
Qed.

Lemma getRecentMessages_some (limit : nat) (w : World) (st : Store) :
  db w = Some st ->
  getRecentMessages limit w = (Firebase.limitToLast limit (messages st), w).
Proof.
  intros Hdb. unfold getRecentMessages. run_m. destruct w; simpl in *.
  now subst.
Qed.

Lemma generateNextMessage_run (inp : TickInput) (w : World) (st : Store) :
  db w = Some st ->
  OracleSession.isNull (session st) = false ->
  exec (generateNextMessage inp) w
  = let recent := Firebase.limitToLast 8 (messages st) in
    let select := determineNextAgent recent (nowBefore inp) (selfDraw inp) in
    let nextAgent := eval select w in
    let w1 := exec (logger (DbgGenerating nextAgent)) (exec select w) in
    let respond := generateContextualResponse nextAgent recent inp in
    let newMessage := eval respond w1 in
    let w2 := exec (saveMessage newMessage) (exec respond w1) in
    let w3 := exec (updateSession (OfMessage newMessage) (nowAfter inp)) w2 in
    let w4 := exec (updateConversationTopic newMessage (nowAfter inp)) w3 in
    exec (logger (DbgGenerated
                    (substring 0 50 (OracleMessage.message newMessage)))) w4.
Proof.
  intros Hdb Hs. unfold generateNextMessage.
  pose proof (getCurrentSession_some w st Hdb Hs) as Hc.
  pose proof (getRecentMessages_some 8 w st Hdb) as Hr.
  assert (Hc1 : eval getCurrentSession w = Some (session st))
    by (unfold eval; now rewrite Hc).
  assert (Hc2 : exec getCurrentSession w = w) by (unfold exec; now rewrite Hc).
  assert (Hr1 : eval (getRecentMessages 8) w
                = Firebase.limitToLast 8 (messages st))
    by (unfold eval; now rewrite Hr).
  assert (Hr2 : exec (getRecentMessages 8) w = w)
    by (unfold exec; now rewrite Hr).
  rewrite exec_bind, Hc1, Hc2.
  rewrite exec_bind, Hr1, Hr2.
  rewrite !exec_bind. reflexivity.
Qed.


Lemma saveMessage_spec m (w : World) :
  is_Some (db w) ->
  let w' := exec (saveMessage m) w in
  storedMessages w' = Firebase.set m (storedMessages w)
  /\ this w' = this w /\ is_Some (db w').
Proof.
  intros [st Hdb]. destruct w as [th d lg]. simpl in Hdb. subst d.
  unfold exec. rewrite saveMessage_run. simpl. eauto.
Qed.

Lemma chosenAgent_eq (inp : TickInput) (w : World) (st : Store) :
  db w = Some st ->
  chosenAgent inp w
  = eval (determineNextAgent (Firebase.limitToLast 8 (messages st))
            (nowBefore inp) (selfDraw inp)) w.
Proof.
  intros Hdb. unfold chosenAgent. rewrite eval_bind.
  pose proof (getRecentMessages_some 8 w st Hdb) as Hr.
  unfold eval at 2, exec. now rewrite Hr.
Qed.

(** C7. Generator failure.  On a tick that reaches the generator (a
    database is there and the session exists), when the generator throws or
    answers with the empty string, the store holds after the tick a message
    with the id, agent and timestamp of this tick whose text is the fallback
    sentence for the selected agent; the text is not empty and contains the
    agent's name; and the tick returns with the timer handle and the running
    flag as they were. *)
Theorem fallback_persisted (inp : TickInput) (w : World) (st : Store) :
  db w = Some st ->
  OracleSession.isNull (session st) = false ->
  generated inp = Throws \/ generated inp = Returns "" ->
  let w' := exec (generateNextMessage inp) w in
  let agent := chosenAgent inp w in
  exists m,
    In m (storedMessages w')
    /\ OracleMessage.id m = messageId (nowAfter inp) (idDraw inp)
    /\ OracleMessage.agent m = agent
    /\ OracleMessage.message m = fallbackMessage agent
    /\ OracleMessage.message m <> ""
    /\ Js.includes (OracleMessage.message m) (agentName agent) = true
    /\ OracleService.interval (this w') = OracleService.interval (this w)
    /\ OracleService.isRunning (this w') = OracleService.isRunning (this w).
Proof.
  intros Hdb Hsess Hgen w' agent. subst w'.
  rewrite (generateNextMessage_run inp w st Hdb Hsess). cbv zeta.
  subst agent. rewrite (chosenAgent_eq inp w st Hdb).
  set (recent := Firebase.limitToLast 8 (messages st)).
  set (select := determineNextAgent recent (nowBefore inp) (selfDraw inp)).
  set (agent := eval select w).
  destruct (determineNextAgent_keeps recent (nowBefore inp) (selfDraw inp) w)
    as (Hdb0 & Hint0 & Hrun0 & _).
  fold select in Hdb0, Hint0, Hrun0.
  set (w1 := exec (logger (DbgGenerating agent)) (exec select w)).
  assert (Hdb1 : db w1 = Some st)
    by (change (db w1) with (db (exec select w)); congruence).
  assert (Hth1 : this w1 = this (exec select w)) by reflexivity.
  destruct (generateContextualResponse_spec agent recent inp w1)
    as (Hc & Hid & Hag & _ & Hmsg).
  set (respond := generateContextualResponse agent recent inp) in *.
  set (m := eval respond w1) in *.
  destruct Hc as (Hth2 & Hsome2 & _ & _).
  assert (Hsome : is_Some (db (exec respond w1))) by (apply Hsome2; rewrite Hdb1; eauto).
  destruct (saveMessage_spec m (exec respond w1) Hsome) as (Hms3 & Hth3 & _).
  set (w2 := exec (saveMessage m) (exec respond w1)) in *.
  destruct (updateSession_countersOnly (OfMessage m) (nowAfter inp) w2)
    as (Hth4 & _ & Hms4 & _).
  set (w3 := exec (updateSession (OfMessage m) (nowAfter inp)) w2) in *.
  destruct (updateConversationTopic_countersOnly m (nowAfter inp) w3)
    as (Hth5 & _ & Hms5 & _).
  set (w4 := exec (updateConversationTopic m (nowAfter inp)) w3) in *.
  assert (Htext : OracleMessage.message m = fallbackMessage agent).
  { rewrite Hmsg. destruct Hgen as [-> | ->]; reflexivity. }
  exists m. split.
  { change (storedMessages (exec (logger _) w4)) with (storedMessages w4).
    rewrite Hms5, Hms4, Hms3. apply Firebase_set_In. }
  split; [exact Hid|]. split; [exact Hag|]. split; [exact Htext|].
  split; [rewrite Htext; apply fallback_not_empty|].
  split; [rewrite Htext; apply fallback_names_agent|].
  change (this (exec (logger _) w4)) with (this w4).
  rewrite Hth5, Hth4, Hth3, Hth2, Hth1. auto.
Qed.

Lemma fallback_persisted_witness :
  (exists m,
     In m (storedMessages
             (exec (generateNextMessage emptyAnswer)
                   (freshWorld sampleSessionId 1699999990000)))
     /\ OracleMessage.message m = fallbackMessage analyzer)
  /\ (exists m,
        In m (storedMessages
                (exec (generateNextMessage failingCall)
                      (freshWorld sampleSessionId 1699999990000)))
        /\ OracleMessage.message m = fallbackMessage analyzer).
Proof.
  split.
  - destruct (fallback_persisted emptyAnswer
                (freshWorld sampleSessionId 1699999990000)
                (mkStore [] (newSession sampleSessionId 1699999990000))
                eq_refl eq_refl (or_intror eq_refl))
      as (m & Hin & _ & _ & Htext & _).
    exists m. split; [exact Hin | exact Htext].
  - destruct (fallback_persisted failingCall
                (freshWorld sampleSessionId 1699999990000)
                (mkStore [] (newSession sampleSessionId 1699999990000))
                eq_refl eq_refl (or_introl eq_refl))
      as (m & Hin & _ & _ & Htext & _).
    exists m. split; [exact Hin | exact Htext].
Defined.

Lemma saveMessage_session m (w : World) :
  storedSession (exec (saveMessage m) w) = storedSession w.
Proof. destruct w as [th [st|] lg]; reflexivity. Qed.

(** No tick changes a topic field of the session. *)
Lemma generateNextMessage_keeps_topic (inp : TickInput) (w : World) :
  topicFields (storedSession (exec (generateNextMessage inp) w))
  = topicFields (storedSession w).
Proof.
  destruct (db w) as [st|] eqn:Hdb.
  - destruct (OracleSession.isNull (session st)) eqn:Hs.
    + destruct w as [th d lg]. simpl in Hdb. subst d.
      unfold generateNextMessage, getCurrentSession, exec. run_m.
      rewrite Hs. reflexivity.
    + rewrite (generateNextMessage_run inp w st Hdb Hs). cbv zeta.
      set (recent := Firebase.limitToLast 8 (messages st)).
      set (select := determineNextAgent recent (nowBefore inp) (selfDraw inp)).
      set (agent := eval select w).
      destruct (determineNextAgent_keeps recent (nowBefore inp) (selfDraw inp) w)
        as (Hdb0 & _). fold select in Hdb0.
      set (w1 := exec (logger (DbgGenerating agent)) (exec select w)).
      assert (Hs1 : storedSession w1 = storedSession w).
      { change (storedSession w1) with (storedSession (exec select w)).
        unfold storedSession. now rewrite Hdb0. }
      destruct (generateContextualResponse_spec agent recent inp w1)
        as ((_ & _ & _ & Hf2) & _).
      set (respond := generateContextualResponse agent recent inp) in *.
      set (m := eval respond w1) in *.
      pose proof (saveMessage_session m (exec respond w1)) as Hs3.
      set (w2 := exec (saveMessage m) (exec respond w1)) in *.
      destruct (updateSession_countersOnly (OfMessage m) (nowAfter inp) w2)
        as (_ & _ & _ & Hf4).
      set (w3 := exec (updateSession (OfMessage m) (nowAfter inp)) w2) in *.
      destruct (updateConversationTopic_countersOnly m (nowAfter inp) w3)
        as (_ & _ & _ & Hf5).
      set (w4 := exec (updateConversationTopic m (nowAfter inp)) w3) in *.
      change (storedSession (exec (logger _) w4)) with (storedSession w4).
      unfold sessionFrame in *. rewrite Hs3 in Hf4. rewrite Hs1 in Hf2.
      congruence.
  - destruct w as [th d lg]. simpl in Hdb. subst d. reflexivity.
Qed.

(** The topics extracted from a text are never none. *)
Lemma extractTopics_not_nil (text : string) : extractTopics text <> [].
Proof.
  unfold extractTopics. destruct (foundTopics _); discriminate.
Qed.

(** [updateConversationTopic] on a stored session, as one equation. *)
Lemma updateConversationTopic_run m now th st lg :
  OracleSession.isNull (session st) = false ->
  exec (updateConversationTopic m now) (mkWorld th (Some st) lg)
  = if shouldChangeTopic (session st) now then
      mkWorld th
        (Some (mkStore (messages st)
                 (counted th (OfSession (session st)) now (session st))))
        (lg ++ [DbgTopicChanged
                  (default "" (head (extractTopics (OracleMessage.message m))))])
    else mkWorld th (Some st) lg.
Proof.
  intros Hs. unfold exec, updateConversationTopic, getCurrentSession. run_m.
  rewrite Hs.
  pose proof (extractTopics_not_nil (OracleMessage.message m)) as Hne.
  destruct (extractTopics (OracleMessage.message m)) as [|newTopic rest];
    [congruence|].
  destruct (shouldChangeTopic (session st) now); [|reflexivity].
  rewrite updateSession_run. reflexivity.
Qed.

Lemma counted_not_null th arg now s :
  OracleSession.isNull (counted th arg now s) = false.
Proof. destruct s as [[?|] ? ? ? ? ? ? ? ? ? ?]; reflexivity. Qed.

Lemma buildEnhancedContext_quiet recent agent draw now (w : World) :
  isRepeating recent = false ->
  exec (buildEnhancedContext recent agent draw now) w = w.
Proof.
  intros H. unfold buildEnhancedContext. rewrite H.
  destruct recent; destruct w; reflexivity.
Qed.

(** What a tick does to the count: with [n] the stored count before the
    tick, and no repetition in the recent messages, the count after the tick
    is [n + 1] when the topic test fails at the new count and [n + 2] when
    it holds. *)
Lemma generateNextMessage_count (inp : TickInput) (w : World) (st : Store) :
  db w = Some st ->
  OracleSession.isNull (session st) = false ->
  isRepeating (Firebase.limitToLast 8 (messages st)) = false ->
  let n := default 0%nat (OracleSession.messageCount (session st)) in
  let topicTest :=
    ((n + 1) mod 10 =? 0)%nat
    || match OracleSession.lastTopicChange (session st) with
       | Some t => negb (t =? 0) && (300000 <? nowAfter inp - t)
       | None => false
       end in
  OracleSession.messageCount (storedSession (exec (generateNextMessage inp) w))
  = Some (if topicTest then n + 2 else n + 1)%nat.
Proof.
  intros Hdb Hs Hrep n topicTest.
  rewrite (generateNextMessage_run inp w st Hdb Hs). cbv zeta.
  set (recent := Firebase.limitToLast 8 (messages st)) in *.
  set (select := determineNextAgent recent (nowBefore inp) (selfDraw inp)).
  set (agent := eval select w).
  destruct (determineNextAgent_keeps recent (nowBefore inp) (selfDraw inp) w)
    as (Hdb0 & _). fold select in Hdb0.
  set (w1 := exec (logger (DbgGenerating agent)) (exec select w)).
  assert (Hdb1 : db w1 = Some st)
    by (change (db w1) with (db (exec select w)); congruence).
  set (respond := generateContextualResponse agent recent inp).
  assert (Hdb2 : db (exec respond w1) = Some st).
  { subst respond. unfold generateContextualResponse.
    rewrite exec_bind, (buildEnhancedContext_quiet _ _ _ _ _ Hrep).
    rewrite exec_bind.
    destruct (generated inp); exact Hdb1. }
  set (m := eval respond w1).
  destruct (exec respond w1) as [th2 d2 lg2] eqn:E2. simpl in Hdb2. subst d2.
  unfold exec at 4. rewrite saveMessage_run. cbn [snd].
  unfold exec at 3. rewrite updateSession_run. cbn [snd messages session].
  rewrite updateConversationTopic_run by apply counted_not_null.
  cbn [messages session].
  change (storedSession (exec (logger ?e) ?x)) with (storedSession x).
  unfold shouldChangeTopic.
  cbn [counted OracleSession.messageCount OracleSession.lastTopicChange].
  fold n. fold topicTest. destruct topicTest; simpl; [|reflexivity].
  f_equal. lia.
Qed.

(** Writing a message under an id that is not in the store adds one node. *)
Lemma Firebase_set_length m ms :
  Forall (fun x => OracleMessage.id x <> OracleMessage.id m) ms ->
  length (Firebase.set m ms) = S (length ms).
Proof.
  induction 1 as [|x r Hx _ IH]; simpl; [reflexivity|].
  rewrite bool_decide_eq_false_2 by exact Hx. simpl. now rewrite IH.
Qed.

(** What a tick does to the messages: the message of this tick is written
    under its id, and nothing else changes in the collection. *)
Lemma generateNextMessage_stores (inp : TickInput) (w : World) (st : Store) :
  db w = Some st ->
  OracleSession.isNull (session st) = false ->
  exists m,
    OracleMessage.id m = messageId (nowAfter inp) (idDraw inp)
    /\ OracleMessage.agent m = chosenAgent inp w
    /\ OracleMessage.timestamp m = nowAfter inp
    /\ storedMessages (exec (generateNextMessage inp) w)
       = Firebase.set m (messages st).
Proof.
  intros Hdb Hs.
  rewrite (generateNextMessage_run inp w st Hdb Hs). cbv zeta.
  rewrite (chosenAgent_eq inp w st Hdb).
  set (recent := Firebase.limitToLast 8 (messages st)).
  set (select := determineNextAgent recent (nowBefore inp) (selfDraw inp)).
  set (agent := eval select w).
  destruct (determineNextAgent_keeps recent (nowBefore inp) (selfDraw inp) w)
    as (Hdb0 & _). fold select in Hdb0.
  set (w1 := exec (logger (DbgGenerating agent)) (exec select w)).
  assert (Hm1 : storedMessages w1 = messages st).
  { change (storedMessages w1) with (storedMessages (exec select w)).
    unfold storedMessages. now rewrite Hdb0, Hdb. }
  assert (Hsome1 : is_Some (db w1)).
  { change (db w1) with (db (exec select w)). rewrite Hdb0, Hdb. eauto. }
  destruct (generateContextualResponse_spec agent recent inp w1)
    as ((_ & Hsome2 & Hm2 & _) & Hid & Hag & Hts & _).
  set (respond := generateContextualResponse agent recent inp) in *.
  set (m := eval respond w1) in *.
  destruct (saveMessage_spec m (exec respond w1) (proj2 Hsome2 Hsome1))
    as (Hm3 & _ & _).
  set (w2 := exec (saveMessage m) (exec respond w1)) in *.
  destruct (updateSession_countersOnly (OfMessage m) (nowAfter inp) w2)
    as (_ & _ & Hm4 & _).
  set (w3 := exec (updateSession (OfMessage m) (nowAfter inp)) w2) in *.
  destruct (updateConversationTopic_countersOnly m (nowAfter inp) w3)
    as (_ & _ & Hm5 & _).
  set (w4 := exec (updateConversationTopic m (nowAfter inp)) w3) in *.
  exists m. repeat split; auto.
  change (storedMessages (exec (logger _) w4)) with (storedMessages w4).
  now rewrite Hm5, Hm4, Hm3, Hm2, Hm1.
Qed.

(** C1, the code on the tenth tick from a fresh session.  Before the tick
    the stored count is 9; the tick stores its message (ten in the store),
    raises the count to 10, finds [10 % 10 === 0], extracts market_analysis
    as first topic of the new text and reports the topic as changed; yet the
    session after the tick has no [currentTopic], no [lastTopicChange] and
    an empty [topicHistory], as before, and its count is 11. *)
Theorem topic_unchanged_on_tenth_tick :
  OracleSession.messageCount (storedSession afterNine) = Some 9%nat
  /\ length (storedMessages afterTen) = 10%nat
  /\ extractTopics "The price found support."
     = ["market_analysis"; "technical_analysis"]
  /\ newLog (generateNextMessage tenthTick) afterNine
     = [DbgGenerating predictor; DbgTopicChanged "market_analysis";
        DbgGenerated "The price found support."]
  /\ topicFields (storedSession afterNine) = (None, None, None, [])
  /\ topicFields (storedSession afterTen) = (None, None, None, [])
  /\ OracleSession.messageCount (storedSession afterTen) = Some 11%nat.
Proof. vm_compute. repeat split. Qed.

(** C2, the code over ten ticks from a fresh session: nine ticks leave nine
    messages and a count of 9; the tenth leaves ten messages and a count of
    11, the topic update having gone through [updateSession] a second
    time. *)
Theorem count_after_ten_ticks :
  storedMessages startWorld = []
  /\ OracleSession.messageCount (storedSession startWorld) = Some 0%nat
  /\ length (storedMessages afterNine) = 9%nat
  /\ OracleSession.messageCount (storedSession afterNine) = Some 9%nat
  /\ afterTen = exec (ticks (nineTicks ++ [tenthTick])) startWorld
  /\ length (storedMessages afterTen) = 10%nat
  /\ OracleSession.messageCount (storedSession afterTen) = Some 11%nat.
Proof. vm_compute. repeat split. Qed.

(** ** Context builder *)

(** Building the context never changes a topic field of the session. *)
Lemma buildEnhancedContext_keeps_topic recent agent draw now (w : World) :
  topicFields (storedSession (exec (buildEnhancedContext recent agent draw now) w))
  = topicFields (storedSession w).
Proof.
  destruct (buildEnhancedContext_countersOnly recent agent draw now w)
    as (_ & _ & _ & H).
  unfold sessionFrame in H. congruence.
Qed.

(** The repetition check: never on one message, on two messages when their
    texts are equal, on three or more when the last three texts are equal. *)
Lemma isRepeating_one m : isRepeating [m] = false.
Proof. reflexivity. Qed.

Lemma isRepeating_two m1 m2 :
  isRepeating [m1; m2] = true <->
  OracleMessage.message m2 = OracleMessage.message m1.
Proof.
  unfold isRepeating. simpl.
  rewrite (bool_decide_eq_true_2 _ (eq_refl (OracleMessage.message m1))).
  simpl. rewrite andb_true_r. apply bool_decide_eq_true.
Qed.

Lemma isRepeating_last_three front m1 m2 m3 :
  isRepeating (front ++ [m1; m2; m3]) = true <->
  OracleMessage.message m2 = OracleMessage.message m1
  /\ OracleMessage.message m3 = OracleMessage.message m1.
Proof.
  unfold isRepeating, Js.slice_last.
  rewrite length_app. simpl length.
  replace (length front + 3 - 3)%nat with (length front) by lia.
  rewrite drop_app_length. simpl.
  rewrite (bool_decide_eq_true_2 _ (eq_refl (OracleMessage.message m1))).
  simpl. rewrite andb_true_r, andb_true_iff, !bool_decide_eq_true. tauto.
Qed.

(** When the check fires the forced change is carried out: the log shows the
    repetition, the topic set and the forced change. *)
Lemma buildEnhancedContext_forces recent agent draw now th st lg :
  isRepeating recent = true ->
  OracleSession.isNull (session st) = false ->
  let topic := default "" (newTopics !! randomIndex draw (length newTopics)) in
  newLog (buildEnhancedContext recent agent draw now)
         (mkWorld th (Some st) lg)
  = [DbgRepetition; InfoTopicSet topic; DbgForcedTopic topic].
Proof.
  intros Hrep Hs topic. apply newLog_app.
  unfold exec, buildEnhancedContext. rewrite Hrep.
  destruct recent as [|m r]; [discriminate Hrep|].
  unfold forceTopicChange, setConversationTopic, getCurrentSession. run_m.
  rewrite Hs. rewrite updateSession_run. cbn [fst snd log].
  now rewrite <- !app_assoc.
Qed.

(** C3, the code on a history of three identical texts.  The repetition is
    detected and a topic change is forced (the log shows both, with the
    topic that was drawn); the session's [currentTopic] after the call is
    market_analysis, as before the call, the other topic fields are as
    before too, and the message count went from 3 to 4. *)
Theorem forced_topic_change_keeps_topic :
  let build :=
    buildEnhancedContext sameTextThrice retrocausal (1 # 4) 1700000024000 in
  isRepeating sameTextThrice = true
  /\ newLog build repeatingWorld
     = [DbgRepetition;
        InfoTopicSet "Examine liquidity dynamics and trading volume patterns";
        DbgForcedTopic "Examine liquidity dynamics and trading volume patterns"]
  /\ OracleSession.currentTopic (storedSession repeatingWorld)
     = Some "market_analysis"
  /\ OracleSession.currentTopic (storedSession (exec build repeatingWorld))
     = Some "market_analysis"
  /\ topicFields (storedSession (exec build repeatingWorld))
     = topicFields (storedSession repeatingWorld)
  /\ OracleSession.messageCount (storedSession repeatingWorld) = Some 3%nat
  /\ OracleSession.messageCount (storedSession (exec build repeatingWorld))
     = Some 4%nat.
Proof. vm_compute. repeat split. Qed.

(** ** Bulk clear *)

(** The literal of [clearMessages] holds [undefined] properties, so the
    store rejects it. *)
Lemma resetData_rejected (now : Z) (s : OracleSession.t) :
  Firebase.update (resetData now) s = None.
Proof. reflexivity. Qed.

Lemma clearMessages_run now th st lg :
  clearMessages now (mkWorld th (Some st) lg)
  = (tt, mkWorld th (Some (mkStore [] (session st))) (lg ++ [ErrClearing])).
Proof. reflexivity. Qed.

(** After [clearMessages] no message is stored, and the session is the one
    that was stored before. *)
Lemma clearMessages_spec now (w : World) :
  storedMessages (exec (clearMessages now) w) = []
  /\ storedSession (exec (clearMessages now) w) = storedSession w
  /\ this (exec (clearMessages now) w) = this w.
Proof. destruct w as [th [st|] lg]; repeat split. Qed.

(** A second call finds nothing more to do: store and service object are as
    the first call left them. *)
Lemma clearMessages_twice now1 now2 (w : World) :
  db (exec (clearMessages now2) (exec (clearMessages now1) w))
  = db (exec (clearMessages now1) w)
  /\ this (exec (clearMessages now2) (exec (clearMessages now1) w))
     = this (exec (clearMessages now1) w).
Proof. destruct w as [th [st|] lg]; repeat split. Qed.

(** C8, the code on a store with three messages and a session that counts
    3 messages under the topic market_analysis.  [clearMessages] removes the
    messages; the reset of the session is refused by the store and logged as
    an error, so the session keeps its count of 3, its topic and its topic
    history; a second call changes nothing more. *)
Theorem clearMessages_leaves_session :
  let once := exec (clearMessages 1700000030000) repeatingWorld in
  let twice := exec (clearMessages 1700000031000) once in
  length (storedMessages repeatingWorld) = 3%nat
  /\ storedMessages once = []
  /\ newLog (clearMessages 1700000030000) repeatingWorld = [ErrClearing]
  /\ storedSession once = topicalSession
  /\ OracleSession.messageCount (storedSession once) = Some 3%nat
  /\ OracleSession.currentTopic (storedSession once) = Some "market_analysis"
  /\ OracleSession.topicHistory (storedSession once) = ["market_analysis"]
  /\ db twice = db once.
Proof. vm_compute. repeat split. Qed.

(** ** The timer *)

Lemma run_app (t1 t2 : list Scheduler.Event) (s : Scheduler.State) :
  Scheduler.run (t1 ++ t2) s
  = match Scheduler.run t1 s with
    | Some s' => Scheduler.run t2 s'
    | None => None
    end.
Proof.
  revert s. induction t1 as [|e r IH]; intros s; simpl; [reflexivity|].
  destruct (Scheduler.step e s); [apply IH | reflexivity].
Qed.

(** [n] firings of a live timer, none of the ticks having settled, leave
    [n] more ticks in flight. *)
Lemma run_firings (n : nat) (s : Scheduler.State) :
  (0 < Scheduler.timers s)%nat ->
  Scheduler.run (repeat Scheduler.TimerFires n) s
  = Some (Scheduler.mkState (Scheduler.isRunning s) (Scheduler.interval s)
            (Scheduler.timers s) (Scheduler.starting s)
            (n + Scheduler.inFlight s)).
Proof.
  revert s. induction n as [|n IH]; intros s Hlive; simpl.
  - destruct s; reflexivity.
  - destruct (Scheduler.timers s) as [|k] eqn:Ht; [lia|].
    rewrite IH; simpl; [|lia]. do 2 f_equal. lia.
Qed.

(** C9 as stated fails: started and with the timer firing twice before the
    first tick settles, two ticks are in flight. *)
Lemma ticks_can_overlap : ~ Scheduler.neverOverlap.
Proof.
  intros H.
  specialize (H [Scheduler.CallStart; Scheduler.ResumeStart;
                 Scheduler.TimerFires; Scheduler.TimerFires]
                (Scheduler.mkState true true 1 0 2) eq_refl).
  simpl in H. lia.
Qed.

(** C9, amended.  The timer callback has no in-flight guard and does not
    wait for an earlier tick: in every state with a live timer a firing
    starts one more tick, whatever number is in flight, and changes nothing
    else; so for every [n] the started orchestrator, with its single timer,
    reaches a state with [n] ticks in flight.  The guard there is sits in
    [startOracle]: called while [isRunning] is set, it changes nothing. *)
Theorem timer_starts_ticks_unguarded (s : Scheduler.State) (n : nat) :
  (0 < Scheduler.timers s)%nat ->
  Scheduler.step Scheduler.TimerFires s
  = Some (Scheduler.mkState (Scheduler.isRunning s) (Scheduler.interval s)
            (Scheduler.timers s) (Scheduler.starting s)
            (S (Scheduler.inFlight s)))
  /\ (exists trace s',
        Scheduler.run ([Scheduler.CallStart; Scheduler.ResumeStart] ++ trace)
                      Scheduler.initial = Some s'
        /\ Scheduler.isRunning s' = true
        /\ Scheduler.timers s' = 1%nat
        /\ Scheduler.inFlight s' = n)
  /\ (Scheduler.isRunning s = true ->
      Scheduler.step Scheduler.CallStart s = Some s).
Proof.
  intros Hlive. split; [|split].
  - unfold Scheduler.step. destruct (Scheduler.timers s); [lia|reflexivity].
  - exists (repeat Scheduler.TimerFires n).
    eexists. rewrite run_app.
    change (Scheduler.run [Scheduler.CallStart; Scheduler.ResumeStart]
                          Scheduler.initial)
      with (Some Scheduler.started).
    cbv beta iota. rewrite run_firings by (simpl; lia).
    split; [reflexivity|]. simpl. repeat split. lia.
  - intros Hrun. unfold Scheduler.step. now rewrite Hrun.
Qed.

Lemma timer_starts_ticks_unguarded_witness :
  Scheduler.step Scheduler.TimerFires (Scheduler.mkState true true 1 0 1)
  = Some (Scheduler.mkState true true 1 0 2).
Proof.
  exact (proj1 (timer_starts_ticks_unguarded
                  (Scheduler.mkState true true 1 0 1) 2
                  ltac:(simpl; lia))).
Defined.

(** * Further properties *)

(** ** The tick, step by step *)

Lemma counted_frame th arg now s :
  sessionFrame (counted th arg now s) = sessionFrame s.
Proof. reflexivity. Qed.

Lemma counted_count th arg now s :
  sessionCount (counted th arg now s) = (sessionCount s + 1)%nat.
Proof. reflexivity. Qed.

(** The store after the context is built: the messages are as before, and
    the session is as before or, after a forced topic change, counted once
    more. *)
Lemma buildEnhancedContext_store recent agent draw now th st lg :
  exists lg1 s1,
    exec (buildEnhancedContext recent agent draw now) (mkWorld th (Some st) lg)
    = mkWorld th (Some (mkStore (messages st) s1)) lg1
    /\ (s1 = session st
        \/ exists x, s1 = counted th (OfSession x) now (session st)).
Proof.
  unfold buildEnhancedContext.
  destruct recent as [|m r].
  { exists lg, (session st). destruct st. split; [reflexivity | now left]. }
  destruct (isRepeating (m :: r)).
  2:{ exists lg, (session st). destruct st. split; [reflexivity | now left]. }
  unfold exec, forceTopicChange, setConversationTopic, getCurrentSession. run_m.
  destruct (OracleSession.isNull (session st)).
  - eexists _, (session st). destruct st. split; [reflexivity | now left].
  - rewrite updateSession_run. cbn [fst snd].
    eexists _, _. split; [reflexivity|]. right. eauto.
Qed.

Lemma generateContextualResponse_store agent recent inp th st lg :
  exists lg1 s1,
    generateContextualResponse agent recent inp (mkWorld th (Some st) lg)
    = (OracleMessage.mk (tickId inp) agent (tickText inp agent) (nowAfter inp)
         TyMessage (OracleService.sessionId th),
       mkWorld th (Some (mkStore (messages st) s1)) lg1)
    /\ (s1 = session st
        \/ exists x, s1 = counted th (OfSession x) (nowBefore inp) (session st)).
Proof.
  destruct (buildEnhancedContext_store recent agent (topicDraw inp)
              (nowBefore inp) th st lg) as (lg1 & s1 & Hb & Hs1).
  unfold generateContextualResponse, tickText, tickId. unfold exec in Hb.
  unfold mbind at 1, M_bind at 1.
  destruct (buildEnhancedContext recent agent (topicDraw inp) (nowBefore inp)
              (mkWorld th (Some st) lg)) as [u w1].
  simpl in Hb. subst w1. run_m.
  destruct (generated inp); eexists _, s1; (split; [reflexivity | exact Hs1]).
Qed.

(** The selector touches the rotation index and the log only. *)
Lemma determineNextAgent_world recent now draw th d lg :
  exists i lg0,
    exec (determineNextAgent recent now draw) (mkWorld th d lg)
    = mkWorld (OracleService.mk (OracleService.interval th)
                 (OracleService.isRunning th) i (OracleService.sessionId th))
              d lg0.
Proof.
  unfold determineNextAgent, exec.
  destruct (last recent) as [lastMessage|].
  - destruct (isLooping _ _); [eexists _, _; reflexivity|].
    destruct (shouldSelfRespond _ _).
    + exists (OracleService.lastAgentIndex th). eexists. destruct th. reflexivity.
    + eexists _, _; reflexivity.
  - eexists _, _; reflexivity.
Qed.

(** What a tick that reaches the generator leaves behind. *)
Lemma tick_summary (inp : TickInput) (w : World) (st : Store) :
  db w = Some st ->
  OracleSession.isNull (session st) = false ->
  let select :=
    determineNextAgent (Firebase.limitToLast 8 (messages st))
                       (nowBefore inp) (selfDraw inp) in
  let agent := eval select w in
  let self := this (exec select w) in
  let m := OracleMessage.mk (tickId inp) agent (tickText inp agent)
             (nowAfter inp) TyMessage (OracleService.sessionId self) in
  exists s',
    db (exec (generateNextMessage inp) w)
    = Some (mkStore (Firebase.set m (messages st)) s')
    /\ this (exec (generateNextMessage inp) w) = self
    /\ OracleSession.isNull s' = false
    /\ sessionFrame s' = sessionFrame (session st)
    /\ OracleSession.lastAgentIndex s'
       = Some (OracleService.lastAgentIndex self)
    /\ OracleSession.updatedAt s' = Some (nowAfter inp)
    /\ OracleSession.lastMessageTime s' = Some (nowAfter inp)
    /\ (sessionCount (session st) + 1 <= sessionCount s'
        <= sessionCount (session st) + 3)%nat.
Proof.
  intros Hdb Hs select agent self m.
  rewrite (generateNextMessage_run inp w st Hdb Hs). cbv zeta.
  fold select. fold agent.
  destruct w as [th d lg]. simpl in Hdb. subst d.
  destruct (determineNextAgent_world (Firebase.limitToLast 8 (messages st))
              (nowBefore inp) (selfDraw inp) th (Some st) lg)
    as (i & lg0 & Hsel).
  fold select in Hsel.
  assert (Hself : self = this (exec select (mkWorld th (Some st) lg)))
    by reflexivity.
  rewrite Hsel in Hself |- *. simpl in Hself.
  set (th0 := OracleService.mk (OracleService.interval th)
                (OracleService.isRunning th) i (OracleService.sessionId th))
    in *.
  change (exec (logger (DbgGenerating agent)) (mkWorld th0 (Some st) lg0))
    with (mkWorld th0 (Some st) (lg0 ++ [DbgGenerating agent])).
  destruct (generateContextualResponse_store agent
              (Firebase.limitToLast 8 (messages st)) inp th0 st
              (lg0 ++ [DbgGenerating agent])) as (lg1 & s1 & Hresp & Hs1).
  assert (Hm : OracleMessage.mk (tickId inp) agent (tickText inp agent)
                 (nowAfter inp) TyMessage (OracleService.sessionId th0) = m).
  { subst m. now rewrite Hself. }
  rewrite Hm in Hresp.
  assert (Hev : eval (generateContextualResponse agent
                        (Firebase.limitToLast 8 (messages st)) inp)
                     (mkWorld th0 (Some st) (lg0 ++ [DbgGenerating agent])) = m)
    by (unfold eval; now rewrite Hresp).
  assert (Hex : exec (generateContextualResponse agent
                        (Firebase.limitToLast 8 (messages st)) inp)
                     (mkWorld th0 (Some st) (lg0 ++ [DbgGenerating agent]))
                = mkWorld th0 (Some (mkStore (messages st) s1)) lg1)
    by (unfold exec; now rewrite Hresp).
  rewrite Hev, Hex.
  assert (Hsave : exec (saveMessage m)
                       (mkWorld th0 (Some (mkStore (messages st) s1)) lg1)
                  = mkWorld th0
                      (Some (mkStore (Firebase.set m (messages st)) s1)) lg1)
    by reflexivity.
  rewrite Hsave.
  assert (Hupd : exec (updateSession (OfMessage m) (nowAfter inp))
                   (mkWorld th0
                      (Some (mkStore (Firebase.set m (messages st)) s1)) lg1)
                 = mkWorld th0
                     (Some (mkStore (Firebase.set m (messages st))
                              (counted th0 (OfMessage m) (nowAfter inp) s1)))
                     lg1)
    by (unfold exec; now rewrite updateSession_run).
  rewrite Hupd.
  rewrite updateConversationTopic_run by apply counted_not_null.
  cbn [messages session].
  set (s2 := counted th0 (OfMessage m) (nowAfter inp) s1).
  assert (Hc1 : (sessionCount (session st) <= sessionCount s1
                 <= sessionCount (session st) + 1)%nat).
  { destruct Hs1 as [-> | [x ->]]; [lia|]. rewrite counted_count. lia. }
  assert (Hf1 : sessionFrame s1 = sessionFrame (session st)).
  { destruct Hs1 as [-> | [x ->]]; reflexivity. }
  destruct (shouldChangeTopic s2 (nowAfter inp)).
  - eexists.
    change (db (exec (logger ?e) ?x)) with (db x).
    change (this (exec (logger ?e) ?x)) with (this x).
    cbn [db this].
    split; [reflexivity|]. split; [now rewrite Hself|].
    split; [apply counted_not_null|].
    split; [now rewrite !counted_frame|].
    split; [now rewrite Hself|].
    split; [reflexivity|]. split; [reflexivity|].
    subst s2. rewrite !counted_count. lia.
  - exists s2.
    change (db (exec (logger ?e) ?x)) with (db x).
    change (this (exec (logger ?e) ?x)) with (this x).
    cbn [db this].
    split; [reflexivity|]. split; [now rewrite Hself|].
    split; [apply counted_not_null|].
    split; [subst s2; now rewrite counted_frame|].
    split; [now rewrite Hself|].
    split; [reflexivity|]. split; [reflexivity|].
    subst s2. rewrite counted_count. lia.
Qed.

Lemma ticks_cons inp rest (w : World) :
  exec (ticks (inp :: rest)) w
  = exec (ticks rest) (exec (generateNextMessage inp) w).
Proof. simpl. now rewrite exec_bind. Qed.

(** A tick that does not reach the generator leaves store and service as
    they were. *)
Lemma tick_aborted (inp : TickInput) (w : World) :
  reachesGenerator w = false ->
  db (exec (generateNextMessage inp) w) = db w
  /\ this (exec (generateNextMessage inp) w) = this w.
Proof.
  unfold reachesGenerator. destruct w as [th [st|] lg]; simpl.
  - intros H. apply negb_false_iff in H.
    unfold exec, generateNextMessage, getCurrentSession. run_m.
    rewrite H. split; reflexivity.
  - intros _. split; reflexivity.
Qed.

Lemma tick_reaches_again (inp : TickInput) (w : World) :
  reachesGenerator (exec (generateNextMessage inp) w) = reachesGenerator w.
Proof.
  destruct (reachesGenerator w) eqn:E.
  - unfold reachesGenerator in E. destruct (db w) as [st|] eqn:Hdb; [|discriminate].
    apply negb_true_iff in E.
    destruct (tick_summary inp w st Hdb E) as (s' & Hdb' & _ & Hnull & _).
    unfold reachesGenerator. rewrite Hdb'. simpl. now rewrite Hnull.
  - destruct (tick_aborted inp w E) as (Hdb & _).
    unfold reachesGenerator in *. now rewrite Hdb.
Qed.

Lemma reaches_some (w : World) :
  reachesGenerator w = true ->
  exists st, db w = Some st /\ OracleSession.isNull (session st) = false.
Proof.
  unfold reachesGenerator. destruct (db w) as [st|]; [|discriminate].
  intros H. apply negb_true_iff in H. eauto.
Qed.

(** ** Store writes *)

Lemma Firebase_set_fresh m ms :
  Forall (fun x => OracleMessage.id x <> OracleMessage.id m) ms ->
  Firebase.set m ms = ms ++ [m].
Proof.
  induction 1 as [|x r Hx _ IH]; simpl; [reflexivity|].
  rewrite bool_decide_eq_false_2 by exact Hx. now rewrite IH.
Qed.

Lemma Firebase_set_length_le m ms :
  (length ms <= length (Firebase.set m ms) <= S (length ms))%nat.
Proof.
  induction ms as [|x r IH]; simpl; [lia|].
  destruct (bool_decide _); simpl; lia.
Qed.

Lemma Firebase_set_keeps m ms x :
  In x ms -> OracleMessage.id x <> OracleMessage.id m ->
  In x (Firebase.set m ms).
Proof.
  induction ms as [|y r IH]; simpl; [tauto|].
  intros [-> | Hin] Hne.
  - rewrite bool_decide_eq_false_2 by exact Hne. now left.
  - destruct (bool_decide _); simpl; auto.
Qed.

(** X1. A tick without database or without session: the store and the
    service object are untouched, no message is stored, and the log gains
    the error line (after the warning, when there is no database). *)
Theorem tick_without_session (inp : TickInput) (w : World) :
  reachesGenerator w = false ->
  db (exec (generateNextMessage inp) w) = db w
  /\ this (exec (generateNextMessage inp) w) = this w
  /\ storedMessages (exec (generateNextMessage inp) w) = storedMessages w
  /\ newLog (generateNextMessage inp) w
     = match db w with
       | Some _ => [ErrNoSession]
       | None => [WarnNoDatabase "returning null session"; ErrNoSession]
       end.
Proof.
  intros H. destruct (tick_aborted inp w H) as (Hdb & Hth).
  split; [exact Hdb|]. split; [exact Hth|].
  split; [unfold storedMessages; now rewrite Hdb|].
  apply newLog_app.
  unfold reachesGenerator in H. destruct w as [th [st|] lg]; simpl in *.
  - apply negb_false_iff in H.
    unfold exec, generateNextMessage, getCurrentSession. run_m.
    now rewrite H.
  - unfold exec, generateNextMessage, getCurrentSession. run_m.
    now rewrite <- app_assoc.
Qed.

Lemma tick_without_session_witness :
  storedMessages
    (exec (generateNextMessage emptyAnswer)
          (mkWorld (OracleService.mk true true 2 sampleSessionId) None []))
  = []
  /\ newLog (generateNextMessage emptyAnswer)
       (sampleWorld 2 oneMessage OracleSession.absent)
     = [ErrNoSession].
Proof.
  split.
  - exact (proj1 (proj2 (proj2
      (tick_without_session emptyAnswer
         (mkWorld (OracleService.mk true true 2 sampleSessionId) None [])
         eq_refl)))).
  - exact (proj2 (proj2 (proj2
      (tick_without_session emptyAnswer
         (sampleWorld 2 oneMessage OracleSession.absent) eq_refl)))).
Defined.

Lemma ticks_app front back (w : World) :
  exec (ticks (front ++ back)) w = exec (ticks back) (exec (ticks front) w).
Proof.
  revert w. induction front as [|inp r IH]; intros w; [reflexivity|].
  simpl app. now rewrite !ticks_cons, IH.
Qed.

Lemma ticks_reach_again inputs (w : World) :
  reachesGenerator (exec (ticks inputs) w) = reachesGenerator w.
Proof.
  revert w. induction inputs as [|inp r IH]; intros w; [reflexivity|].
  now rewrite ticks_cons, IH, tick_reaches_again.
Qed.

(** The selector leaves a valid rotation index valid. *)
Lemma determineNextAgent_index recent now draw (w : World) :
  (OracleService.lastAgentIndex (this w) < 4)%nat ->
  (OracleService.lastAgentIndex
     (this (exec (determineNextAgent recent now draw) w)) < 4)%nat.
Proof.
  intros H. unfold exec.
  destruct (last recent) as [lastMessage|] eqn:Hlast.
  - rewrite (determineNextAgent_run _ _ _ _ _ Hlast). cbv zeta.
    destruct (isLooping _ _);
      [cbn -[Nat.modulo]; apply Nat.mod_upper_bound; lia|].
    destruct (shouldSelfRespond _ _); cbn -[Nat.modulo]; [exact H|].
    apply Nat.mod_upper_bound; lia.
  - unfold determineNextAgent. rewrite Hlast. simpl. lia.
Qed.

Lemma tick_index (inp : TickInput) (w : World) :
  (OracleService.lastAgentIndex (this w) < 4)%nat ->
  (OracleService.lastAgentIndex
     (this (exec (generateNextMessage inp) w)) < 4)%nat.
Proof.
  intros H. destruct (reachesGenerator w) eqn:E.
  - destruct (reaches_some w E) as (st & Hdb & Hs).
    destruct (tick_summary inp w st Hdb Hs) as (s' & _ & Hth & _).
    rewrite Hth. now apply determineNextAgent_index.
  - destruct (tick_aborted inp w E) as (_ & Hth). now rewrite Hth.
Qed.

(** X2. The first tick over an empty message collection: whatever the
    rotation index was, the one message stored is the analyzer's (the first
    agent of the roster), with this tick's id, text and time; the rotation
    index is 0 in the service and in the stored session; and the stored
    count is one more than before (two more when the topic test holds at
    the new count). *)
Theorem first_tick_on_empty_store (inp : TickInput) (w : World) (st : Store) :
  db w = Some st ->
  OracleSession.isNull (session st) = false ->
  messages st = [] ->
  let w' := exec (generateNextMessage inp) w in
  let n := sessionCount (session st) in
  let topicTest :=
    ((n + 1) mod 10 =? 0)%nat
    || match OracleSession.lastTopicChange (session st) with
       | Some t => negb (t =? 0) && (300000 <? nowAfter inp - t)
       | None => false
       end in
  storedMessages w'
  = [ OracleMessage.mk (tickId inp) analyzer (tickText inp analyzer)
        (nowAfter inp) TyMessage (OracleService.sessionId (this w)) ]
  /\ agents !! 0%nat = Some analyzer
  /\ OracleService.lastAgentIndex (this w') = 0%nat
  /\ OracleSession.lastAgentIndex (storedSession w') = Some 0%nat
  /\ OracleSession.messageCount (storedSession w')
     = Some (if topicTest then n + 2 else n + 1)%nat.
Proof.
  intros Hdb Hs Hempty w' n topicTest.
  destruct (tick_summary inp w st Hdb Hs) as (s' & Hdb' & Hth & _ & _ & Hidx & _).
  pose proof (generateNextMessage_count inp w st Hdb Hs) as Hcount.
  rewrite Hempty in *. cbv zeta in Hcount.
  specialize (Hcount eq_refl).
  change (Firebase.limitToLast 8 []) with (@nil OracleMessage.t) in *.
  destruct w as [th d lg]. simpl in Hdb. subst d.
  unfold w', storedMessages, storedSession. rewrite Hdb'. simpl.
  split; [reflexivity|]. split; [reflexivity|].
  split; [now rewrite Hth|].
  split; [now rewrite Hidx|].
  unfold storedSession in Hcount. rewrite Hdb' in Hcount. exact Hcount.
Qed.

Lemma first_tick_on_empty_store_witness :
  map OracleMessage.agent
      (storedMessages (exec (generateNextMessage emptyAnswer)
                            (sampleWorld 3 [] (newSession sampleSessionId 0))))
  = [analyzer]
  /\ OracleSession.messageCount
       (storedSession (exec (generateNextMessage emptyAnswer)
                            (sampleWorld 3 [] (newSession sampleSessionId 0))))
     = Some 1%nat.
Proof.
  destruct (first_tick_on_empty_store emptyAnswer
              (sampleWorld 3 [] (newSession sampleSessionId 0))
              (mkStore [] (newSession sampleSessionId 0))
              eq_refl eq_refl eq_refl) as (Hm & _ & _ & _ & Hc).
  split; [now rewrite Hm | exact Hc].
Defined.

(** X3. A non-empty answer of the generator is stored as it is: after the
    tick the store holds a message with this tick's id whose text is the
    answer, from the selected agent, stamped with the time read after the
    call, of type 'message' and under the service's session id. *)
Theorem response_stored_verbatim (inp : TickInput) (w : World) (st : Store)
    (response : string) :
  db w = Some st ->
  OracleSession.isNull (session st) = false ->
  generated inp = Returns response ->
  response <> "" ->
  exists m,
    In m (storedMessages (exec (generateNextMessage inp) w))
    /\ OracleMessage.id m = tickId inp
    /\ OracleMessage.message m = response
    /\ OracleMessage.agent m = chosenAgent inp w
    /\ OracleMessage.timestamp m = nowAfter inp
    /\ OracleMessage.type m = TyMessage
    /\ OracleMessage.sessionId m = OracleService.sessionId (this w).
Proof.
  intros Hdb Hs Hgen Hne.
  destruct (tick_summary inp w st Hdb Hs) as (s' & Hdb' & _).
  destruct (determineNextAgent_keeps (Firebase.limitToLast 8 (messages st))
              (nowBefore inp) (selfDraw inp) w) as (_ & _ & _ & Hsid).
  eexists. unfold storedMessages. rewrite Hdb'. simpl.
  split; [apply Firebase_set_In|]. simpl.
  split; [reflexivity|].
  split.
  { unfold tickText. rewrite Hgen. destruct response; [congruence | reflexivity]. }
  split; [now rewrite (chosenAgent_eq inp w st Hdb)|].
  split; [reflexivity|]. split; [reflexivity|]. exact Hsid.
Qed.

Lemma response_stored_verbatim_witness :
  exists m,
    In m (storedMessages afterTen)
    /\ OracleMessage.message m = "The price found support.".
Proof.
  assert (Hdb : db afterNine
                = Some (mkStore (storedMessages afterNine)
                                (storedSession afterNine)))
    by (vm_compute; reflexivity).
  destruct (response_stored_verbatim tenthTick afterNine _
              "The price found support." Hdb
              ltac:(vm_compute; reflexivity) eq_refl ltac:(discriminate))
    as (m & Hin & _ & Htext & _).
  exists m. split; [exact Hin | exact Htext].
Defined.

(** X4. A tick never drops a stored message: every message stored under
    another id than this tick's is still there afterwards, the collection
    grows by at most one, and when the tick's id is new its message is
    appended after all the others. *)
Theorem tick_keeps_messages (inp : TickInput) (w : World) (st : Store) :
  db w = Some st ->
  OracleSession.isNull (session st) = false ->
  let after := storedMessages (exec (generateNextMessage inp) w) in
  (forall x, In x (messages st) -> OracleMessage.id x <> tickId inp ->
             In x after)
  /\ (length (messages st) <= length after <= S (length (messages st)))%nat
  /\ (Forall (fun x => OracleMessage.id x <> tickId inp) (messages st) ->
      exists m, after = messages st ++ [m]
                /\ OracleMessage.id m = tickId inp
                /\ OracleMessage.agent m = chosenAgent inp w).
Proof.
  intros Hdb Hs after.
  destruct (tick_summary inp w st Hdb Hs) as (s' & Hdb' & _).
  subst after. unfold storedMessages. rewrite Hdb'. cbn [messages].
  split; [|split].
  - intros x Hin Hne. now apply Firebase_set_keeps.
  - apply Firebase_set_length_le.
  - intros Hfresh. eexists. split; [now apply Firebase_set_fresh|].
    split; [reflexivity|]. now rewrite (chosenAgent_eq inp w st Hdb).
Qed.

Lemma tick_keeps_messages_witness :
  (length (storedMessages afterNine)
   <= length (storedMessages (exec (generateNextMessage tenthTick) afterNine))
   <= S (length (storedMessages afterNine)))%nat.
Proof.
  assert (Hdb : db afterNine
                = Some (mkStore (storedMessages afterNine)
                                (storedSession afterNine)))
    by (vm_compute; reflexivity).
  assert (Hs : OracleSession.isNull
                 (session (mkStore (storedMessages afterNine)
                                   (storedSession afterNine))) = false)
    by (vm_compute; reflexivity).
  exact (proj1 (proj2 (tick_keeps_messages tenthTick afterNine _ Hdb Hs))).
Defined.

(** X5. Over a run of ticks that reach the generator, with ids that are new
    and pairwise different, every tick stores exactly one message: the ids
    in the store after the run are the ids that were there, followed by the
    ticks' ids in the order of the ticks. *)
Theorem ticks_ids (inputs : list TickInput) (w : World) :
  reachesGenerator w = true ->
  NoDup (map OracleMessage.id (storedMessages w) ++ map tickId inputs) ->
  map OracleMessage.id (storedMessages (exec (ticks inputs) w))
  = map OracleMessage.id (storedMessages w) ++ map tickId inputs.
Proof.
  revert w. induction inputs as [|inp r IH]; intros w Hreach Hnd.
  - simpl. now rewrite app_nil_r.
  - rewrite ticks_cons.
    destruct (reaches_some w Hreach) as (st & Hdb & Hs).
    destruct (tick_keeps_messages inp w st Hdb Hs) as (_ & _ & Happ).
    assert (Hst : storedMessages w = messages st)
      by (unfold storedMessages; now rewrite Hdb).
    rewrite Hst in *. simpl map in Hnd.
    assert (Hfresh : Forall (fun x => OracleMessage.id x <> tickId inp)
                            (messages st)).
    { apply Forall_forall. intros x Hin Heq.
      apply NoDup_app in Hnd. destruct Hnd as (_ & Hdisj & _).
      apply (Hdisj (OracleMessage.id x)).
      - apply list_elem_of_In, in_map. now apply list_elem_of_In.
      - rewrite Heq. left. }
    destruct (Happ Hfresh) as (m & Heq & Hid & _).
    rewrite IH.
    + rewrite Heq, map_app. simpl. rewrite Hid, <- app_assoc. reflexivity.
    + now rewrite tick_reaches_again.
    + rewrite Heq, map_app. simpl. rewrite Hid, <- app_assoc. exact Hnd.
Qed.

Lemma ticks_ids_witness :
  length (storedMessages (exec (ticks (nineTicks ++ [tenthTick])) startWorld))
  = 10%nat.
Proof.
  pose proof (ticks_ids (nineTicks ++ [tenthTick]) startWorld eq_refl) as H.
  rewrite <- (length_map OracleMessage.id), H; [reflexivity|].
  apply (bool_decide_unpack _). vm_compute. exact I.
Defined.

(** The two halves run one after the other are [updateSession]. *)
Lemma updateSession_halves (arg : UpdateArg) (now : Z) (w : World) :
  updateSession arg now w
  = (read ← updateSession_read; updateSession_resume arg now read) w.
Proof.
  destruct w as [th [st|] lg]; [|reflexivity].
  unfold updateSession, updateSession_read, updateSession_resume,
    updateSession_write, getCurrentSession.
  run_m. destruct (Firebase.update _ _); reflexivity.
Qed.

Lemma updateSession_write_run arg now read th st lg :
  updateSession_write arg now read (mkWorld th (Some st) lg)
  = (tt, mkWorld th
           (Some (mkStore (messages st)
                    (OracleSession.mk
                       (OracleSession.id (session st))
                       (Some (OracleService.lastAgentIndex th))
                       (Some (storedCount read + 1)%nat)
                       (match arg with
                        | OfMessage m => Some (OracleMessage.timestamp m)
                        | OfSession _ =>
                            OracleSession.lastMessageTime (session st)
                        end)
                       (OracleSession.isActive (session st))
                       (OracleSession.createdAt (session st))
                       (Some now)
                       (OracleSession.currentTopic (session st))
                       (OracleSession.conversationTheme (session st))
                       (OracleSession.lastTopicChange (session st))
                       (OracleSession.topicHistory (session st)))))
           lg).
Proof. unfold updateSession_write. run_m. destruct arg; reflexivity. Qed.

(** X6. [updateSession] is no atomic read-modify-write.  It is its two
    halves, the read and the write, run one after the other; two calls in
    turn raise the stored [messageCount] by two; two calls that overlap, so
    that both have read before either writes, raise it by one, since both
    write the count they read plus one.  So when two ticks have saved their
    messages and their [updateSession] calls overlap, the count falls
    behind the messages: from a store that holds [n] messages at a count
    of [n], two new messages and a count of [n + 1]. *)
Theorem updateSession_lost_update (arg1 arg2 : UpdateArg) (now1 now2 : Z)
    (w : World) (st : Store) :
  db w = Some st ->
  let n := sessionCount (session st) in
  (forall arg now v,
      updateSession arg now v
      = (read ← updateSession_read; updateSession_resume arg now read) v)
  /\ OracleSession.messageCount
       (storedSession (exec (updateSession_inTurn arg1 arg2 now1 now2) w))
     = Some (n + 2)%nat
  /\ OracleSession.messageCount
       (storedSession (exec (updateSession_overlapped arg1 arg2 now1 now2) w))
     = Some (n + 1)%nat
  /\ storedMessages (exec (updateSession_overlapped arg1 arg2 now1 now2) w)
     = messages st
  /\ (forall m1 m2,
        OracleMessage.id m1 <> OracleMessage.id m2 ->
        Forall (fun x => OracleMessage.id x <> OracleMessage.id m1
                         /\ OracleMessage.id x <> OracleMessage.id m2)
               (messages st) ->
        length (messages st) = n ->
        let w' := exec (_ ← saveMessage m1;
                        _ ← saveMessage m2;
                        updateSession_overlapped arg1 arg2 now1 now2) w in
        storedMessages w' = messages st ++ [m1; m2]
        /\ OracleSession.messageCount (storedSession w') = Some (n + 1)%nat
        /\ (sessionCount (storedSession w') < length (storedMessages w'))%nat).
Proof.
  intros Hdb n.
  destruct w as [th d lg]. simpl in Hdb. subst d.
  destruct st as [stored sess]. cbn [messages session] in *.
  assert (Hover : forall ms,
             exec (updateSession_overlapped arg1 arg2 now1 now2)
                  (mkWorld th (Some (mkStore ms sess)) lg)
             = mkWorld th
                 (Some (mkStore ms
                    (OracleSession.mk
                       (OracleSession.id sess)
                       (Some (OracleService.lastAgentIndex th))
                       (Some (n + 1)%nat)
                       (match arg2 with
                        | OfMessage m => Some (OracleMessage.timestamp m)
                        | OfSession _ =>
                            match arg1 with
                            | OfMessage m => Some (OracleMessage.timestamp m)
                            | OfSession _ =>
                                OracleSession.lastMessageTime sess
                            end
                        end)
                       (OracleSession.isActive sess)
                       (OracleSession.createdAt sess)
                       (Some now2)
                       (OracleSession.currentTopic sess)
                       (OracleSession.conversationTheme sess)
                       (OracleSession.lastTopicChange sess)
                       (OracleSession.topicHistory sess))))
                 lg).
  { intros ms.
    unfold updateSession_overlapped, updateSession_read,
      updateSession_resume, getCurrentSession, exec.
    cbv beta iota zeta delta
      [mbind M_bind mret M_ret getFirebaseDatabase db this log fst snd].
    rewrite updateSession_write_run. cbv beta iota.
    rewrite updateSession_write_run. cbn [snd messages session].
    unfold n, sessionCount. rewrite storedCount_val.
    destruct arg1, arg2; reflexivity. }
  split; [intros arg now v; apply updateSession_halves|].
  split.
  { unfold updateSession_inTurn. rewrite exec_bind. unfold exec at 2.
    rewrite updateSession_run. cbn [snd]. unfold exec.
    rewrite updateSession_run. cbn [snd storedSession db session].
    unfold counted, n, sessionCount.
    destruct sess as [i la [c|] lt ia ca ua ct th' lc hist];
      destruct arg1, arg2; simpl; f_equal; lia. }
  split; [now rewrite Hover|].
  split; [now rewrite Hover|].
  intros m1 m2 Hne Hfresh Hlen.
  set (w' := exec _ _).
  assert (Hsaved : exec (saveMessage m2)
                     (exec (saveMessage m1) (mkWorld th (Some (mkStore stored sess)) lg))
                   = mkWorld th
                       (Some (mkStore (stored ++ [m1; m2]) sess))
                       lg).
  { unfold exec, saveMessage.
    cbv beta iota zeta delta
      [mbind M_bind mret M_ret getFirebaseDatabase putStore db this log
       fst snd messages session].
    rewrite (Firebase_set_fresh m1 stored).
    - rewrite (Firebase_set_fresh m2).
      + now rewrite <- app_assoc.
      + apply Forall_app. split.
        * eapply Forall_impl; [exact Hfresh|]. intros x [_ H]. exact H.
        * repeat constructor. exact Hne.
    - eapply Forall_impl; [exact Hfresh|]. intros x [H _]. exact H. }
  assert (Hw' : w' = exec (updateSession_overlapped arg1 arg2 now1 now2)
                       (exec (saveMessage m2)
                          (exec (saveMessage m1) (mkWorld th (Some (mkStore stored sess)) lg))))
    by (subst w'; now rewrite !exec_bind).
  rewrite Hsaved, Hover in Hw'. rewrite Hw'.
  unfold storedMessages, storedSession, sessionCount.
  cbn [db messages session OracleSession.messageCount default].
  split; [reflexivity|]. split; [reflexivity|].
  rewrite length_app. simpl length. unfold id. lia.
Qed.

Lemma updateSession_lost_update_witness :
  storedMessages afterTwoOverlapped = [] ++ [firstOfTwo; secondOfTwo]
  /\ OracleSession.messageCount (storedSession afterTwoOverlapped)
     = Some (0 + 1)%nat
  /\ (sessionCount (storedSession afterTwoOverlapped)
      < length (storedMessages afterTwoOverlapped))%nat.
Proof.
  assert (Hne : OracleMessage.id firstOfTwo <> OracleMessage.id secondOfTwo)
    by (vm_compute; discriminate).
  exact (proj2 (proj2 (proj2 (proj2
           (updateSession_lost_update
              (OfMessage firstOfTwo) (OfMessage secondOfTwo)
              1700000008100 1700000016100 startWorld
              (mkStore [] (newSession sampleSessionId 1700000000000))
              eq_refl))))
           firstOfTwo secondOfTwo Hne (Forall_nil_2 _) eq_refl).
Defined.

(** After a run of at least one tick that reaches the generator, the
    session stores the index the service holds. *)
Lemma ticks_stored_index (inputs : list TickInput) (w : World) :
  reachesGenerator w = true -> inputs <> [] ->
  OracleSession.lastAgentIndex (storedSession (exec (ticks inputs) w))
  = Some (OracleService.lastAgentIndex (this (exec (ticks inputs) w))).
Proof.
  intros Hreach Hne.
  destruct (exists_last Hne) as (front & lastInp & ->).
  rewrite ticks_app, ticks_cons.
  change (exec (ticks []) ?x) with x.
  set (v := exec (ticks front) w).
  assert (Hrv : reachesGenerator v = true)
    by (subst v; now rewrite ticks_reach_again).
  destruct (reaches_some v Hrv) as (st & Hdb & Hs).
  destruct (tick_summary lastInp v st Hdb Hs)
    as (s' & Hdb' & Hth & _ & _ & Hidx & _).
  unfold storedSession. rewrite Hdb'. cbn [session].
  now rewrite Hidx, Hth.
Qed.

(** X7. The rotation index stays an index of the roster, and the session
    record follows it: from a valid index, after any run of ticks the index
    is valid, and after a run of at least one tick that reaches the
    generator the [lastAgentIndex] stored in the session is the index the
    service holds. *)
Theorem rotation_index_kept (inputs : list TickInput) (w : World) :
  (OracleService.lastAgentIndex (this w) < 4)%nat ->
  let w' := exec (ticks inputs) w in
  (OracleService.lastAgentIndex (this w') < length agents)%nat
  /\ (reachesGenerator w = true -> inputs <> [] ->
      OracleSession.lastAgentIndex (storedSession w')
      = Some (OracleService.lastAgentIndex (this w'))).
Proof.
  intros Hvalid w'. subst w'.
  assert (Hinv : forall ins v,
             (OracleService.lastAgentIndex (this v) < 4)%nat ->
             (OracleService.lastAgentIndex (this (exec (ticks ins) v)) < 4)%nat).
  { induction ins as [|inp r IH]; intros v Hv; [exact Hv|].
    rewrite ticks_cons. apply IH. now apply tick_index. }
  split; [apply Hinv, Hvalid|].
  intros Hreach Hne. now apply ticks_stored_index.
Qed.

Lemma rotation_index_kept_witness :
  (OracleService.lastAgentIndex (this afterNine) < length agents)%nat
  /\ OracleSession.lastAgentIndex (storedSession afterNine)
     = Some (OracleService.lastAgentIndex (this afterNine)).
Proof.
  destruct (rotation_index_kept nineTicks startWorld ltac:(simpl; lia))
    as (Hv & Hs).
  split; [exact Hv|]. apply Hs; [reflexivity | discriminate].
Defined.

(** ** The loop guard over a conversation *)

(** With the index in step, the loop guard returns another agent than the
    one of the last three messages. *)
Lemma loopGuard_in_step front m1 m2 m3 now draw (w : World) :
  OracleMessage.agent m1 = OracleMessage.agent m3 ->
  OracleMessage.agent m2 = OracleMessage.agent m3 ->
  agents !! OracleService.lastAgentIndex (this w)
  = Some (OracleMessage.agent m3) ->
  eval (determineNextAgent (front ++ [m1; m2; m3]) now draw) w
  <> OracleMessage.agent m3.
Proof.
  intros H1 H2 Hstep.
  assert (Hlast : last (front ++ [m1; m2; m3]) = Some m3).
  { change [m1; m2; m3] with ([m1; m2] ++ [m3]). rewrite app_assoc.
    apply last_snoc. }
  assert (Htaken : loopGuardTaken (front ++ [m1; m2; m3]) now draw w = true)
    by (apply loopGuard_last_three; auto).
  destruct (loopGuard_result _ _ now draw w Hlast Htaken) as (Hres & _).
  pose proof (rotation_changes_agent _ _ Hstep) as Hne.
  pose proof (agents_in_range (OracleService.lastAgentIndex (this w))) as Hr.
  simpl length in Hr. cbv zeta in Hres. rewrite Hres in Hr.
  injection Hr as Hr. rewrite Hr. exact Hne.
Qed.

(** X8. The loop guard does break a run of one agent when the rotation
    index is in step with the conversation: on a history whose last three
    messages are from the agent at the rotation index, the selector takes
    the loop-guard branch and returns the next agent of the roster, who is
    another agent, and stores the next index. *)
Theorem loop_guard_changes_speaker
    (front : list OracleMessage.t) (m1 m2 m3 : OracleMessage.t)
    (now : Z) (draw : Q) (w : World) :
  OracleMessage.agent m1 = OracleMessage.agent m3 ->
  OracleMessage.agent m2 = OracleMessage.agent m3 ->
  agents !! OracleService.lastAgentIndex (this w)
  = Some (OracleMessage.agent m3) ->
  let select := determineNextAgent (front ++ [m1; m2; m3]) now draw in
  let next := ((OracleService.lastAgentIndex (this w) + 1) mod 4)%nat in
  loopGuardTaken (front ++ [m1; m2; m3]) now draw w = true
  /\ eval select w <> OracleMessage.agent m3
  /\ agents !! next = Some (eval select w)
  /\ OracleService.lastAgentIndex (this (exec select w)) = next.
Proof.
  intros H1 H2 Hstep select next.
  assert (Hlast : last (front ++ [m1; m2; m3]) = Some m3).
  { change [m1; m2; m3] with ([m1; m2] ++ [m3]). rewrite app_assoc.
    apply last_snoc. }
  assert (Htaken : loopGuardTaken (front ++ [m1; m2; m3]) now draw w = true)
    by (apply loopGuard_last_three; auto).
  destruct (loopGuard_result _ _ now draw w Hlast Htaken) as (Hres & Hidx).
  fold select next in Hres, Hidx.
  split; [exact Htaken|]. split; [|split; [exact Hres | exact Hidx]].
  pose proof (rotation_changes_agent _ _ Hstep) as Hne.
  pose proof (agents_in_range (OracleService.lastAgentIndex (this w))) as Hr.
  fold next in Hr. simpl length in Hr. fold next in Hr.
  rewrite Hres in Hr. injection Hr as Hr. rewrite Hr. exact Hne.
Qed.

Lemma loop_guard_changes_speaker_witness :
  eval (determineNextAgent threeFromPredictor 1700000024000 (1 # 10))
       (sampleWorld 1 threeFromPredictor (newSession sampleSessionId 0))
  = quantum_eraser.
Proof.
  destruct (loop_guard_changes_speaker []
              (sampleMessage predictor "Volume will pick up." 1700000000000)
              (sampleMessage predictor "Then again, it may stall." 1700000008000)
              (sampleMessage predictor "Either way, watch the whales."
                 1700000016000)
              1700000024000 (1 # 10)
              (sampleWorld 1 threeFromPredictor (newSession sampleSessionId 0))
              eq_refl eq_refl eq_refl) as (_ & _ & Hres & _).
  vm_compute in Hres. vm_compute. congruence.
Defined.

Lemma NoFourInARow_snoc (l : list Agent) (a : Agent) :
  NoFourInARow l ->
  (forall front, l <> front ++ [a; a; a]) ->
  NoFourInARow (l ++ [a]).
Proof.
  intros Hl Hend front b back Heq.
  destruct back as [|y back' _] using rev_ind.
  - change (front ++ [b; b; b; b] ++ []) with (front ++ [b; b; b] ++ [b]) in Heq.
    rewrite !app_assoc in Heq. apply app_inj_tail in Heq.
    destruct Heq as [Heq ->]. apply (Hend front). exact Heq.
  - rewrite !app_assoc in Heq. apply app_inj_tail in Heq.
    destruct Heq as [Heq _]. apply (Hl front b back').
    now rewrite Heq, <- !app_assoc.
Qed.

(** The agent the selector returns is the agent at the rotation index it
    leaves, provided the index was in step with the last message. *)
Lemma selector_in_step recent now draw (w : World) :
  (forall m, last recent = Some m ->
             agents !! OracleService.lastAgentIndex (this w)
             = Some (OracleMessage.agent m)) ->
  agents !! OracleService.lastAgentIndex
              (this (exec (determineNextAgent recent now draw) w))
  = Some (eval (determineNextAgent recent now draw) w).
Proof.
  intros Hstep. unfold exec, eval.
  destruct (last recent) as [lastMessage|] eqn:Hlast.
  - rewrite (determineNextAgent_run _ _ _ _ _ Hlast). cbv zeta.
    destruct (isLooping _ _);
      [cbn -[Nat.modulo agents];
       apply (agents_in_range (OracleService.lastAgentIndex (this w)))|].
    destruct (shouldSelfRespond _ _); cbn -[Nat.modulo agents].
    + now apply Hstep.
    + apply (agents_in_range (OracleService.lastAgentIndex (this w))).
  - unfold determineNextAgent. rewrite Hlast. reflexivity.
Qed.

Lemma ends_with_three (msgs : list OracleMessage.t) (a : Agent) front :
  map OracleMessage.agent msgs = front ++ [a; a; a] ->
  exists f m1 m2 m3,
    msgs = f ++ [m1; m2; m3]
    /\ OracleMessage.agent m1 = a /\ OracleMessage.agent m2 = a
    /\ OracleMessage.agent m3 = a.
Proof.
  revert front. induction msgs as [|x r IH]; intros front Heq.
  - destruct front; discriminate Heq.
  - destruct front as [|y front].
    + destruct r as [|x2 [|x3 [|x4 r]]]; try discriminate Heq.
      simpl in Heq. injection Heq as H1 H2 H3.
      exists [], x, x2, x3. auto.
    + simpl in Heq. injection Heq as _ Heq.
      destruct (IH front Heq) as (f & m1 & m2 & m3 & -> & H).
      exists (x :: f), m1, m2, m3. auto.
Qed.

Lemma NoFourInARow_short (l : list Agent) :
  (length l < 4)%nat -> NoFourInARow l.
Proof.
  intros H front a back Heq. apply (f_equal length) in Heq.
  rewrite !length_app in Heq. simpl in Heq. lia.
Qed.

(** X9. The selector makes no agent speak a fourth time in a row.  For
    every history handed to [determineNextAgent] in which no agent holds
    four messages in a row, with the rotation index at the agent of the
    last message: the history followed by a message of the selected agent
    has no four in a row either, and the rotation index is left at the
    selected agent, whichever of the branches (empty history, loop guard,
    self-response, rotation) was taken.  This is about one call on the
    history it is given; ticks that overlap call the selector on the same
    history and are not covered. *)
Theorem selector_never_fourth (history : list OracleMessage.t)
    (now : Z) (draw : Q) (w : World) :
  NoFourInARow (map OracleMessage.agent history) ->
  (forall m, last history = Some m ->
             agents !! OracleService.lastAgentIndex (this w)
             = Some (OracleMessage.agent m)) ->
  let select := determineNextAgent history now draw in
  NoFourInARow (map OracleMessage.agent history ++ [eval select w])
  /\ agents !! OracleService.lastAgentIndex (this (exec select w))
     = Some (eval select w).
Proof.
  intros Hno Hstep select. split.
  - apply NoFourInARow_snoc; [exact Hno|].
    intros front Heq.
    destruct (ends_with_three history (eval select w) front Heq)
      as (f & m1 & m2 & m3 & Hh & H1 & H2 & H3).
    subst history. subst select.
    assert (Hlast : last (f ++ [m1; m2; m3]) = Some m3).
    { change [m1; m2; m3] with ([m1; m2] ++ [m3]). rewrite app_assoc.
      apply last_snoc. }
    apply (loopGuard_in_step f m1 m2 m3 now draw w); try congruence.
    now apply Hstep.
  - now apply selector_in_step.
Qed.

Lemma selector_never_fourth_witness :
  NoFourInARow
    (map OracleMessage.agent threeFromPredictor
     ++ [eval (determineNextAgent threeFromPredictor 1700000030000 (1 # 2))
              (sampleWorld 1 threeFromPredictor
                 (newSession sampleSessionId 0))]).
Proof.
  assert (Hno : NoFourInARow (map OracleMessage.agent threeFromPredictor))
    by (apply NoFourInARow_short; vm_compute; lia).
  assert (Hstep : forall m, last threeFromPredictor = Some m ->
             agents !! OracleService.lastAgentIndex
                         (this (sampleWorld 1 threeFromPredictor
                                  (newSession sampleSessionId 0)))
             = Some (OracleMessage.agent m)).
  { intros m Hm. vm_compute in Hm. injection Hm as <-. reflexivity. }
  exact (proj1 (selector_never_fourth threeFromPredictor 1700000030000
                  (1 # 2) _ Hno Hstep)).
Defined.

(** ** Reading the conversation back *)

Lemma ticks_keep_topic (inputs : list TickInput) (w : World) :
  topicFields (storedSession (exec (ticks inputs) w))
  = topicFields (storedSession w).
Proof.
  revert w. induction inputs as [|inp r IH]; intros w; [reflexivity|].
  now rewrite ticks_cons, IH, generateNextMessage_keeps_topic.
Qed.

Lemma isNull_topic (s : OracleSession.t) :
  OracleSession.isNull s = true ->
  OracleSession.currentTopic s = None /\ OracleSession.topicHistory s = [].
Proof.
  destruct s as [i la mc lt ia ca ua ct th lc hist]. simpl.
  destruct i, la, mc, lt, ia, ca, ua, ct, th, lc, hist; try discriminate.
  auto.
Qed.

Lemma getConversationContext_topic (w : World) :
  ConversationContext.currentTopic (eval getConversationContext w)
  = match OracleSession.currentTopic (storedSession w) with
    | Some t => orElse t general_market_discussion
    | None => general_market_discussion
    end
  /\ ConversationContext.topicHistory (eval getConversationContext w)
     = OracleSession.topicHistory (storedSession w).
Proof.
  destruct w as [th [st|] lg]; unfold eval, getConversationContext,
    getCurrentSession, getRecentMessages, storedSession; run_m;
    [|split; reflexivity].
  destruct (OracleSession.isNull (session st)) eqn:E; simpl;
    [|split; reflexivity].
  destruct (isNull_topic _ E) as [-> ->]. split; reflexivity.
Qed.

(** X10. No run of ticks changes the topic a caller reads back: the
    [currentTopic] and [topicHistory] that [getConversationContext] reports
    after any run of ticks are the ones it reported before, so a session
    created without a topic reports general_market_discussion and an empty
    history for as long as only ticks run. *)
Theorem context_topic_unchanged (inputs : list TickInput) (w : World) :
  ConversationContext.currentTopic
    (eval getConversationContext (exec (ticks inputs) w))
  = ConversationContext.currentTopic (eval getConversationContext w)
  /\ ConversationContext.topicHistory
       (eval getConversationContext (exec (ticks inputs) w))
     = ConversationContext.topicHistory (eval getConversationContext w)
  /\ (OracleSession.currentTopic (storedSession w) = None ->
      ConversationContext.currentTopic
        (eval getConversationContext (exec (ticks inputs) w))
      = general_market_discussion).
Proof.
  destruct (getConversationContext_topic (exec (ticks inputs) w)) as [H1 H2].
  destruct (getConversationContext_topic w) as [H3 H4].
  pose proof (ticks_keep_topic inputs w) as Hk.
  unfold topicFields in Hk. injection Hk as Hct _ _ Hh.
  rewrite H1, H2, H3, H4, Hct, Hh.
  split; [reflexivity|]. split; [reflexivity|].
  now intros ->.
Qed.

(** ** Random picks *)

Lemma randomIndex_lt (draw : Q) (n : nat) :
  (0 <= draw)%Q -> (draw < 1)%Q -> (0 < n)%nat ->
  (randomIndex draw n < n)%nat.
Proof.
  intros H0 H1 Hn. unfold randomIndex.
  set (q := (draw * inject_Z (Z.of_nat n))%Q).
  assert (Hq0 : (0 <= q)%Q).
  { subst q. apply Qmult_le_0_compat; [exact H0|].
    change 0%Q with (inject_Z 0). rewrite <- Zle_Qle. lia. }
  assert (Hq1 : (q < inject_Z (Z.of_nat n))%Q).
  { subst q. rewrite <- (Qmult_1_l (inject_Z (Z.of_nat n))) at 2.
    apply Qmult_lt_compat_r; [|exact H1].
    change 0%Q with (inject_Z 0). rewrite <- Zlt_Qlt. lia. }
  assert (Hf0 : 0 <= Qfloor q).
  { change 0 with (Qfloor (inject_Z 0)). now apply Qfloor_resp_le. }
  assert (Hf1 : Qfloor q < Z.of_nat n).
  { apply Z.lt_nge. intros Hge. rewrite Zle_Qle in Hge.
    pose proof (Qfloor_le q) as Hle.
    apply (Qlt_irrefl q). eapply Qlt_le_trans; [exact Hq1|].
    eapply Qle_trans; [exact Hge | exact Hle]. }
  lia.
Qed.

(** X11. Every random pick stays inside its list: for a draw in [0, 1) the
    topic forced by [forceTopicChange] is one of the eight new topics (the
    log names it), and the prompts of [getInitialTopicPrompt] and
    [getCurrentTopicPrompt] carry one of the six opening topics and one of
    the seven market topics. *)
Theorem random_picks_in_range (draw : Q) (now : Z) (w : World) :
  (0 <= draw)%Q -> (draw < 1)%Q ->
  (exists topic,
      In topic newTopics
      /\ last (log (exec (forceTopicChange draw now) w))
         = Some (DbgForcedTopic topic))
  /\ (exists topic,
        In topic initialTopics
        /\ getInitialTopicPrompt draw
           = "Begin a new oracle conversation about: " +:+ topic)
  /\ (exists topic,
        In topic marketTopics
        /\ getCurrentTopicPrompt draw = "Current Focus: " +:+ topic).
Proof.
  intros H0 H1.
  assert (Hpick : forall xs : list string, (0 < length xs)%nat ->
            exists x, xs !! randomIndex draw (length xs) = Some x /\ In x xs).
  { intros xs Hlen.
    destruct (lookup_lt_is_Some_2 xs (randomIndex draw (length xs)))
      as [x Hx]; [now apply randomIndex_lt|].
    exists x. split; [exact Hx|].
    apply list_elem_of_In, list_elem_of_lookup. eauto. }
  split; [|split].
  - destruct (Hpick newTopics ltac:(simpl; lia)) as (t & Ht & Hin).
    exists t. split; [exact Hin|].
    unfold forceTopicChange. rewrite Ht. simpl default.
    rewrite exec_bind. unfold exec at 1. simpl. apply last_snoc.
  - destruct (Hpick initialTopics ltac:(simpl; lia)) as (t & Ht & Hin).
    exists t. split; [exact Hin|].
    unfold getInitialTopicPrompt, randomElement. now rewrite Ht.
  - destruct (Hpick marketTopics ltac:(simpl; lia)) as (t & Ht & Hin).
    exists t. split; [exact Hin|].
    unfold getCurrentTopicPrompt, randomElement. now rewrite Ht.
Qed.

Lemma random_picks_in_range_witness :
  exists topic,
    In topic marketTopics
    /\ getCurrentTopicPrompt (999 # 1000) = "Current Focus: " +:+ topic.
Proof.
  exact (proj2 (proj2 (random_picks_in_range (999 # 1000) 0 startWorld
                         ltac:(discriminate) ltac:(reflexivity)))).
Defined.

Lemma getMessages_eval (limit : nat) (w : World) :
  eval (getMessages limit) w
  = rev (Firebase.limitToLast limit (storedMessages w)).
Proof. destruct w as [th [st|] lg]; reflexivity. Qed.

Lemma getRecentMessages_eval (limit : nat) (w : World) :
  eval (getRecentMessages limit) w
  = Firebase.limitToLast limit (storedMessages w).
Proof. destruct w as [th [st|] lg]; reflexivity. Qed.

(** X12. What [getMessages] lists after a tick, whatever the order in
    which the database hands the messages over.  After a tick that reaches
    the generator under a new id: the list is the list of
    [getRecentMessages] for the same limit read backwards; it has as many
    entries as the limit allows, the smaller of the limit and the number of
    stored messages; every entry is a stored message; and with a limit above
    the number of messages stored before the tick, the list holds exactly
    the stored messages, the tick's own among them. *)
Theorem getMessages_after_tick (inp : TickInput) (w : World) (st : Store)
    (limit : nat) :
  db w = Some st ->
  OracleSession.isNull (session st) = false ->
  Forall (fun x => OracleMessage.id x <> tickId inp) (messages st) ->
  let w' := exec (generateNextMessage inp) w in
  let listed := eval (getMessages limit) w' in
  listed = rev (eval (getRecentMessages limit) w')
  /\ length listed = Nat.min limit (S (length (messages st)))
  /\ (forall m, In m listed -> In m (storedMessages w'))
  /\ ((length (messages st) < limit)%nat ->
      listed ≡ₚ storedMessages w'
      /\ exists m,
           In m listed
           /\ OracleMessage.id m = tickId inp
           /\ OracleMessage.agent m = chosenAgent inp w
           /\ OracleMessage.message m = tickText inp (chosenAgent inp w)).
Proof.
  intros Hdb Hs Hfresh w' listed.
  destruct (tick_summary inp w st Hdb Hs) as (s' & Hdb' & _).
  cbv zeta in Hdb'. rewrite (chosenAgent_eq inp w st Hdb).
  set (agent := eval (determineNextAgent (Firebase.limitToLast 8 (messages st))
                        (nowBefore inp) (selfDraw inp)) w) in *.
  rewrite Firebase_set_fresh in Hdb' by exact Hfresh.
  assert (Hst : storedMessages w'
                = messages st ++
                  [OracleMessage.mk (tickId inp) agent (tickText inp agent)
                     (nowAfter inp) TyMessage
                     (OracleService.sessionId
                        (this (exec (determineNextAgent
                                       (Firebase.limitToLast 8 (messages st))
                                       (nowBefore inp) (selfDraw inp)) w)))])
    by (subst w'; unfold storedMessages; now rewrite Hdb').
  assert (Hl : listed = rev (Firebase.limitToLast limit (storedMessages w')))
    by apply getMessages_eval.
  assert (Hr : eval (getRecentMessages limit) w' = rev listed)
    by (rewrite Hl, rev_involutive; apply getRecentMessages_eval).
  assert (Hlen : length (storedMessages w') = S (length (messages st)))
    by (rewrite Hst, length_app; simpl; lia).
  split; [|split; [|split]].
  - now rewrite Hr, rev_involutive.
  - rewrite Hl, length_rev. unfold Firebase.limitToLast, Js.slice_last.
    rewrite length_drop, Hlen. lia.
  - intros m Hm. rewrite Hl in Hm. apply in_rev in Hm.
    apply list_elem_of_In. apply list_elem_of_In in Hm.
    exact (subseteq_drop _ _ _ Hm).
  - intros Hlimit.
    assert (Hall : listed = rev (storedMessages w')).
    { rewrite Hl. unfold Firebase.limitToLast, Js.slice_last.
      replace (length (storedMessages w') - limit)%nat with 0%nat by lia.
      reflexivity. }
    split.
    + rewrite Hall. apply Permutation_sym, Permutation_rev.
    + eexists. split.
      { rewrite Hall, <- in_rev, Hst. apply in_or_app. right. left.
        reflexivity. }
      simpl. auto.
Qed.

Lemma getMessages_after_tick_witness :
  exists m,
    In m (eval (getMessages 20)
               (exec (generateNextMessage emptyAnswer)
                     (sampleWorld 0 oneMessage (newSession sampleSessionId 0))))
    /\ OracleMessage.id m = tickId emptyAnswer.
Proof.
  assert (Hfresh : Forall (fun x => OracleMessage.id x <> tickId emptyAnswer)
                          oneMessage).
  { repeat constructor. vm_compute. discriminate. }
  assert (Hlimit : (length oneMessage < 20)%nat) by (vm_compute; lia).
  destruct (proj2 (proj2 (proj2
              (getMessages_after_tick emptyAnswer
                 (sampleWorld 0 oneMessage (newSession sampleSessionId 0))
                 (mkStore oneMessage (newSession sampleSessionId 0)) 20
                 eq_refl eq_refl Hfresh))) Hlimit)
    as (_ & m & Hin & Hid & _).
  exists m. split; [exact Hin | exact Hid].
Defined.

(** ** Session set-up and restart *)

(** X13. The rotation survives a restart within the year, and only then.
    After a run of at least one tick that reaches the generator, let a new
    process construct the service object (index 0) over the same database.
    When the year gives the object the session id of the old one,
    [initializeSession] hands it the rotation index the old one held and
    leaves the store as it is.  When the year gives another id and the
    database has no session under it, [initializeSession] creates one: the
    index stays 0 and the session starts at zero, while the messages of the
    old session are still the history the next tick reads. *)
Theorem rotation_survives_restart (inputs : list TickInput) (w : World)
    (now year : Z) (other : OracleSession.t) :
  reachesGenerator w = true ->
  inputs <> [] ->
  let w' := exec (ticks inputs) w in
  let sameId :=
    OracleService.sessionId (construct year)
    = OracleService.sessionId (this w') in
  (sameId ->
   exists w'',
     initializeSession now (restarted year other w') = Some w''
     /\ OracleService.lastAgentIndex (this w'')
        = OracleService.lastAgentIndex (this w')
     /\ db w'' = db w')
  /\ (~ sameId -> OracleSession.isNull other = true ->
      exists w'',
        initializeSession now (restarted year other w') = Some w''
        /\ OracleService.lastAgentIndex (this w'') = 0%nat
        /\ storedSession w''
           = newSession (OracleService.sessionId (construct year)) now
        /\ storedMessages w'' = storedMessages w'
        /\ eval (getRecentMessages 8) w'' = eval (getRecentMessages 8) w').
Proof.
  intros Hreach Hne w' sameId.
  pose proof (ticks_stored_index inputs w Hreach Hne) as Hidx.
  assert (Hr : reachesGenerator w' = true)
    by (subst w'; now rewrite ticks_reach_again).
  destruct (reaches_some w' Hr) as (st & Hdb & Hs).
  fold w' in Hidx. unfold storedSession in Hidx. rewrite Hdb in Hidx.
  unfold initializeSession, restarted. cbn [db this]. rewrite Hdb.
  split.
  - intros Hsame. rewrite decide_True by exact Hsame.
    cbn [session messages]. rewrite Hs, Hidx.
    eexists. split; [reflexivity|]. simpl. destruct st. auto.
  - intros Hdiff Hnull. rewrite decide_False by exact Hdiff.
    cbn [session messages]. rewrite Hnull.
    eexists. split; [reflexivity|].
    rewrite !getRecentMessages_eval.
    unfold storedSession, storedMessages. cbn [db this session messages].
    rewrite Hdb. auto.
Qed.

Lemma rotation_survives_restart_witness :
  (exists w'',
      initializeSession 1700000100000
        (restarted 2025 OracleSession.absent afterNine) = Some w''
      /\ OracleService.lastAgentIndex (this w'')
         = OracleService.lastAgentIndex (this afterNine))
  /\ (exists w'',
        initializeSession 1700000100000
          (restarted 2026 OracleSession.absent afterNine) = Some w''
        /\ OracleService.lastAgentIndex (this w'') = 0%nat).
Proof.
  assert (Hid : OracleService.sessionId (construct 2025)
                = OracleService.sessionId (this afterNine))
    by (vm_compute; reflexivity).
  assert (Hother : OracleService.sessionId (construct 2026)
                   <> OracleService.sessionId (this afterNine))
    by (vm_compute; discriminate).
  split.
  - destruct (proj1 (rotation_survives_restart nineTicks startWorld
                       1700000100000 2025 OracleSession.absent
                       eq_refl ltac:(discriminate)) Hid)
      as (w'' & H1 & H2 & _).
    exists w''. split; [exact H1 | exact H2].
  - destruct (proj2 (rotation_survives_restart nineTicks startWorld
                       1700000100000 2026 OracleSession.absent
                       eq_refl ltac:(discriminate)) Hother eq_refl)
      as (w'' & H1 & H2 & _).
    exists w''. split; [exact H1 | exact H2].
Defined.

(** X14. [initializeSession] creates the session only when none is stored.
    With a database, whenever it returns: the messages are untouched and
    afterwards the session exists; a session that was stored is left exactly
    as it was, a missing one is created with both counters at zero, and
    initialising again never changes the store. *)
Theorem initializeSession_creates_once (now now2 : Z) (w w1 : World)
    (st : Store) :
  db w = Some st ->
  initializeSession now w = Some w1 ->
  reachesGenerator w1 = true
  /\ storedMessages w1 = messages st
  /\ (OracleSession.isNull (session st) = false -> db w1 = db w)
  /\ (OracleSession.isNull (session st) = true ->
      storedSession w1 = newSession (OracleService.sessionId (this w)) now
      /\ OracleSession.messageCount (storedSession w1) = Some 0%nat
      /\ OracleSession.lastAgentIndex (storedSession w1) = Some 0%nat
      /\ this w1 = this w)
  /\ (exists w2, initializeSession now2 w1 = Some w2 /\ db w2 = db w1).
Proof.
  intros Hdb Hinit. unfold initializeSession in Hinit. rewrite Hdb in Hinit.
  destruct (OracleSession.isNull (session st)) eqn:Hs.
  - injection Hinit as <-.
    split; [reflexivity|]. split; [reflexivity|].
    split; [discriminate|]. split; [auto|].
    eexists. split; [reflexivity|]. reflexivity.
  - destruct (OracleSession.lastAgentIndex (session st)) as [i|] eqn:Hi;
      [|discriminate].
    injection Hinit as <-.
    destruct w as [th d lg]. simpl in Hdb. subst d.
    unfold reachesGenerator, storedMessages. simpl. rewrite Hs.
    split; [reflexivity|]. split; [reflexivity|].
    split; [reflexivity|]. split; [discriminate|].
    unfold initializeSession, exec. simpl. rewrite Hs, Hi.
    eexists. split; reflexivity.
Qed.

Lemma initializeSession_creates_once_witness :
  storedSession
    (mkWorld (OracleService.mk false false 0 sampleSessionId)
       (Some (mkStore oneMessage (newSession sampleSessionId 1700000100000)))
       [])
  = newSession sampleSessionId 1700000100000.
Proof.
  exact (proj1 (proj1 (proj2 (proj2 (proj2
    (initializeSession_creates_once 1700000100000 1700000200000
       (mkWorld (OracleService.mk false false 0 sampleSessionId)
          (Some (mkStore oneMessage OracleSession.absent)) [])
       (mkWorld (OracleService.mk false false 0 sampleSessionId)
          (Some (mkStore oneMessage
                   (newSession sampleSessionId 1700000100000))) [])
       (mkStore oneMessage OracleSession.absent)
       eq_refl eq_refl)))) eq_refl)).
Defined.

(** ** Topics of a history *)

Lemma setOrder_spec (seen xs : list string) :
  NoDup (setOrder seen xs)
  /\ (forall x, x ∈ setOrder seen xs <-> x ∈ xs /\ x ∉ seen).
Proof.
  revert seen. induction xs as [|y r IH]; intros seen; simpl.
  - split; [constructor|]. intros x. rewrite elem_of_nil. tauto.
  - case_bool_decide as Hy.
    + destruct (IH seen) as [Hnd Hel]. split; [exact Hnd|].
      intros x. rewrite Hel, elem_of_cons. split; [tauto|].
      intros [[->|Hx] Hn]; [contradiction | auto].
    + destruct (IH (y :: seen)) as [Hnd Hel]. split.
      * constructor; [|exact Hnd]. rewrite Hel, elem_of_cons. tauto.
      * intros x. rewrite !elem_of_cons, Hel, elem_of_cons.
        destruct (decide (x = y)) as [->|Hne]; [tauto|]. tauto.
Qed.

Lemma setOrder_ext (s1 s2 xs : list string) :
  (forall x, x ∈ s1 <-> x ∈ s2) -> setOrder s1 xs = setOrder s2 xs.
Proof.
  revert s1 s2. induction xs as [|y r IH]; intros s1 s2 H; simpl;
    [reflexivity|].
  rewrite (bool_decide_ext (y ∈ s1) (y ∈ s2)) by apply H.
  case_bool_decide; [now apply IH|].
  f_equal. apply IH. intros x. rewrite !elem_of_cons, H. tauto.
Qed.

Lemma setOrder_app (seen xs ys : list string) :
  setOrder seen (xs ++ ys)
  = setOrder seen xs ++ setOrder (xs ++ seen) ys.
Proof.
  revert seen. induction xs as [|y r IH]; intros seen; simpl; [reflexivity|].
  case_bool_decide as Hy.
  - rewrite IH. f_equal. apply setOrder_ext. intros x.
    rewrite !elem_of_app, !elem_of_cons, ?elem_of_app.
    split; [tauto|]. intros [->|[H|H]]; auto.
  - rewrite IH. simpl. do 2 f_equal. apply setOrder_ext. intros x.
    rewrite !elem_of_app, !elem_of_cons, ?elem_of_app. tauto.
Qed.

Lemma setOrder_all_seen (seen ys : list string) :
  (forall y, y ∈ ys -> y ∈ seen) -> setOrder seen ys = [].
Proof.
  intros H. destruct (setOrder seen ys) as [|x r] eqn:E; [reflexivity|].
  assert (Hx : x ∈ setOrder seen ys) by (rewrite E; left).
  apply setOrder_spec in Hx. destruct Hx as [Hx Hn]. now apply H in Hx.
Qed.

Lemma extractTopics_labels (text topic : string) :
  topic ∈ extractTopics text -> topic ∈ topicLabels.
Proof.
  unfold extractTopics, topicLabels. intros H.
  destruct (foundTopics (Js.toLowerCase text)) as [|t r] eqn:E.
  - apply list_elem_of_singleton in H. subst. apply elem_of_app. right. left.
  - rewrite <- E in H. apply list_elem_of_In, elem_of_foundTopics in H.
    destruct H as (kws & Hin & _). apply elem_of_app. left.
    apply list_elem_of_In. change topic with (fst (topic, kws)).
    now apply in_map.
Qed.

Lemma elem_of_extractTopicsFromMessages (msgs : list OracleMessage.t) topic :
  topic ∈ extractTopicsFromMessages msgs <->
  exists m, m ∈ msgs /\ topic ∈ extractTopics (OracleMessage.message m).
Proof.
  unfold extractTopicsFromMessages.
  rewrite (proj2 (setOrder_spec [] _)). rewrite elem_of_nil.
  split.
  - intros [H _]. apply list_elem_of_In, in_concat in H.
    destruct H as (l & Hl & Hin). apply in_map_iff in Hl.
    destruct Hl as (m & <- & Hm). exists m.
    split; now apply list_elem_of_In.
  - intros (m & Hm & Hin). split; [|tauto].
    apply list_elem_of_In, in_concat.
    exists (extractTopics (OracleMessage.message m)).
    split; [|now apply list_elem_of_In].
    apply in_map_iff. exists m. split; [reflexivity|now apply list_elem_of_In].
Qed.

(** X15. The topics of a history: [extractTopicsFromMessages] returns each
    topic once, a topic is in the result exactly when it is a topic of one
    of the messages, the result has at most eight entries (the seven
    categories and general_market_discussion), and it is empty only for the
    empty history. *)
Theorem extractTopicsFromMessages_spec (msgs : list OracleMessage.t) :
  NoDup (extractTopicsFromMessages msgs)
  /\ (forall topic,
        topic ∈ extractTopicsFromMessages msgs <->
        exists m, m ∈ msgs /\ topic ∈ extractTopics (OracleMessage.message m))
  /\ (length (extractTopicsFromMessages msgs) <= 8)%nat
  /\ (extractTopicsFromMessages msgs = [] <-> msgs = []).
Proof.
  split; [apply setOrder_spec|].
  split; [apply elem_of_extractTopicsFromMessages|].
  split.
  - change 8%nat with (length topicLabels).
    apply submseteq_length, NoDup_submseteq; [apply setOrder_spec|].
    intros t Ht. apply elem_of_extractTopicsFromMessages in Ht.
    destruct Ht as (m & _ & Ht). now apply extractTopics_labels in Ht.
  - split; [|intros ->; reflexivity].
    intros Hnil. destruct msgs as [|m r]; [reflexivity|]. exfalso.
    destruct (extractTopics (OracleMessage.message m)) as [|t ts] eqn:E;
      [now apply extractTopics_not_nil in E|].
    assert (Ht : t ∈ extractTopicsFromMessages (m :: r)).
    { apply elem_of_extractTopicsFromMessages. exists m.
      split; [left | rewrite E; left]. }
    rewrite Hnil in Ht. now apply elem_of_nil in Ht.
Qed.

(** X16. A message that only returns to topics already met does not move
    the conversation's "current topic": when every topic of the new message
    is a topic of an earlier message of the history, the topic list and the
    current topic of [analyzeConversationFlow] are what they were without
    the message. *)
Theorem revisited_topic_is_not_current (msgs : list OracleMessage.t)
    (m : OracleMessage.t) :
  (forall topic, topic ∈ extractTopics (OracleMessage.message m) ->
                 topic ∈ extractTopicsFromMessages msgs) ->
  extractTopicsFromMessages (msgs ++ [m]) = extractTopicsFromMessages msgs
  /\ flowCurrentTopic (msgs ++ [m]) = flowCurrentTopic msgs.
Proof.
  intros Hseen.
  assert (Heq : extractTopicsFromMessages (msgs ++ [m])
                = extractTopicsFromMessages msgs).
  { unfold extractTopicsFromMessages. rewrite map_app, concat_app.
    cbn [map concat]. rewrite app_nil_r, setOrder_app.
    rewrite (setOrder_all_seen _ (extractTopics (OracleMessage.message m)));
      [apply app_nil_r|].
    intros y Hy. apply Hseen in Hy.
    unfold extractTopicsFromMessages in Hy.
    apply setOrder_spec in Hy. apply elem_of_app. left. tauto. }
  split; [exact Heq|]. unfold flowCurrentTopic. now rewrite Heq.
Qed.

Lemma revisited_topic_is_not_current_witness :
  flowCurrentTopic
    ([ sampleMessage analyzer "The price is up." 1700000000000;
       sampleMessage predictor "That is a risk." 1700000008000 ]
     ++ [ sampleMessage analyzer "Back to the price." 1700000016000 ])
  = "risk_assessment".
Proof.
  rewrite (proj2 (revisited_topic_is_not_current
                    [ sampleMessage analyzer "The price is up." 1700000000000;
                      sampleMessage predictor "That is a risk." 1700000008000 ]
                    (sampleMessage analyzer "Back to the price." 1700000016000)
                    ltac:(vm_compute; intros topic Ht;
                          apply list_elem_of_singleton in Ht; subst; left))).
  vm_compute. reflexivity.
Defined.

(** ** The timer, used in sequence and not *)

(** X17. Used in sequence, start and stop keep their promise.  From a
    settled state: [startOracle] run to its end leaves a settled running
    state with exactly one timer (also when the service was running
    already, in which case nothing changes); [stopOracle] leaves a settled
    stopped state in which the timer cannot fire any more, while the ticks
    in flight are left to settle; stopping twice is stopping once; and a
    firing timer or a settling tick keep the state settled. *)
Theorem start_stop_in_sequence (s : Scheduler.State) :
  settled s ->
  (exists s1,
      startOracle s = Some s1 /\ settled s1
      /\ Scheduler.isRunning s1 = true /\ Scheduler.timers s1 = 1%nat
      /\ Scheduler.inFlight s1 = Scheduler.inFlight s
      /\ (Scheduler.isRunning s = true -> s1 = s))
  /\ (exists s2,
        stopOracle s = Some s2 /\ settled s2
        /\ Scheduler.isRunning s2 = false /\ Scheduler.timers s2 = 0%nat
        /\ Scheduler.inFlight s2 = Scheduler.inFlight s
        /\ Scheduler.step Scheduler.TimerFires s2 = None
        /\ stopOracle s2 = Some s2)
  /\ (forall e s3,
        e = Scheduler.TimerFires \/ e = Scheduler.TickSettles ->
        Scheduler.step e s = Some s3 -> settled s3).
Proof.
  destruct s as [running handle timers starting inFlight].
  unfold settled. simpl. intros (-> & -> & ->).
  split; [|split].
  - destruct running; simpl; eexists; (split; [reflexivity|]); simpl;
      repeat split; auto; discriminate.
  - destruct running; simpl; eexists; (split; [reflexivity|]); simpl;
      repeat split; auto.
  - intros e s3 [-> | ->]; destruct running; simpl; try discriminate.
    + intros [= <-]. simpl. auto.
    + destruct inFlight; [discriminate|]. intros [= <-]. simpl. auto.
    + destruct inFlight; [discriminate|]. intros [= <-]. simpl. auto.
Qed.

Lemma start_stop_in_sequence_witness :
  exists s2,
    stopOracle (Scheduler.mkState true true 1 0 1) = Some s2
    /\ Scheduler.step Scheduler.TimerFires s2 = None.
Proof.
  destruct (proj1 (proj2 (start_stop_in_sequence
                            (Scheduler.mkState true true 1 0 1)
                            (conj eq_refl (conj eq_refl eq_refl)))))
    as (s2 & H1 & _ & _ & _ & _ & H2 & _).
  exists s2. split; [exact H1 | exact H2].
Defined.

(** [stopOracle] on a stopped service without a handle changes nothing. *)
Lemma stops_on_stopped (k t st f : nat) :
  Scheduler.run (repeat Scheduler.CallStop k)
    (Scheduler.mkState false false t st f)
  = Some (Scheduler.mkState false false t st f).
Proof.
  induction k as [|k IH]; [reflexivity|]. simpl. exact IH.
Qed.

(** X18. A stop that falls into the start-up does not stop the timer.  From
    a settled stopped state, when [stopOracle] is called while [startOracle]
    is suspended at its awaits, the resumed start installs the timer all the
    same: the service then counts as stopped and ticks start nevertheless.
    When a second start was called in between, two timers are installed
    under one handle, and one of them stays live after any number of
    stops. *)
Theorem stop_during_startup (s : Scheduler.State) (k : nat) :
  settled s ->
  Scheduler.isRunning s = false ->
  (exists s1,
      Scheduler.run [Scheduler.CallStart; Scheduler.CallStop;
                     Scheduler.ResumeStart] s = Some s1
      /\ Scheduler.isRunning s1 = false
      /\ Scheduler.timers s1 = 1%nat
      /\ Scheduler.step Scheduler.TimerFires s1
         = Some (Scheduler.mkState false true 1 0 (S (Scheduler.inFlight s))))
  /\ (exists s2,
        Scheduler.run ([Scheduler.CallStart; Scheduler.CallStop;
                        Scheduler.CallStart; Scheduler.ResumeStart;
                        Scheduler.ResumeStart]
                       ++ repeat Scheduler.CallStop (S k)) s = Some s2
        /\ Scheduler.isRunning s2 = false
        /\ Scheduler.interval s2 = false
        /\ Scheduler.timers s2 = 1%nat
        /\ Scheduler.step Scheduler.TimerFires s2
           = Some (Scheduler.mkState false false 1 0
                     (S (Scheduler.inFlight s)))).
Proof.
  destruct s as [running handle timers starting inFlight].
  unfold settled. simpl. intros (-> & -> & ->) ->.
  split.
  - eexists. split; [reflexivity|]. simpl. auto.
  - exists (Scheduler.mkState false false 1 0 inFlight).
    split; [|simpl; auto].
    change (Scheduler.run (repeat Scheduler.CallStop k)
              (Scheduler.mkState false false 1 0 inFlight)
            = Some (Scheduler.mkState false false 1 0 inFlight)).
    apply stops_on_stopped.
Qed.

Lemma stop_during_startup_witness :
  exists s1,
    Scheduler.run [Scheduler.CallStart; Scheduler.CallStop;
                   Scheduler.ResumeStart] Scheduler.initial = Some s1
    /\ Scheduler.isRunning s1 = false
    /\ Scheduler.timers s1 = 1%nat.
Proof.
  destruct (proj1 (stop_during_startup Scheduler.initial 0
                     (conj eq_refl (conj eq_refl eq_refl)) eq_refl))
    as (s1 & H1 & H2 & H3 & _).
  exists s1. auto.
Defined.

(** ** Message ids *)

Lemma pretty_N_char_digit (x : N) : isDigit (pretty_N_char x) = true.
Proof. unfold pretty_N_char. repeat case_match; reflexivity. Qed.

Lemma pretty_N_go_digits (x : N) (s : string) :
  allDigits s = true -> allDigits (pretty_N_go x s) = true.
Proof.
  revert s. induction (N.lt_wf_0 x) as [x _ IH]. intros s Hs.
  destruct (decide (x = 0)%N) as [->|Hx].
  - now rewrite pretty_N_go_0.
  - rewrite pretty_N_go_step by lia. apply IH.
    + apply N.div_lt; lia.
    + simpl. now rewrite pretty_N_char_digit.
Qed.

(** The decimal numeral of a clock value that is not negative consists of
    digits. *)
Lemma pretty_Z_digits (n : Z) : 0 <= n -> allDigits (pretty n) = true.
Proof.
  destruct n as [|p|p]; intros H; [reflexivity | | lia].
  change (pretty (Z.pos p)) with (pretty (N.pos p)).
  unfold pretty, pretty_N. case_decide; [reflexivity|].
  now apply pretty_N_go_digits.
Qed.

(** Two numerals, each followed by a dash: the first dash ends the
    numeral. *)
Lemma digits_dash_split (a b r1 r2 : string) :
  allDigits a = true -> allDigits b = true ->
  (a ++ "-" ++ r1 = b ++ "-" ++ r2)%string -> a = b /\ r1 = r2.
Proof.
  assert (Hnil : forall s, ("" ++ s)%string = s) by reflexivity.
  assert (Hcons : forall c s t,
             (String c s ++ t)%string = String c (s ++ t)%string)
    by reflexivity.
  revert b. induction a as [|c a IH]; intros [|d b] Ha Hb H;
    rewrite ?Hcons, ?Hnil in H; simpl in Ha, Hb.
  - injection H as ->. auto.
  - injection H as <- _. discriminate.
  - injection H as -> _. discriminate.
  - injection H as -> H.
    apply andb_prop in Ha as [_ Ha], Hb as [_ Hb].
    destruct (IH b Ha Hb H) as [-> ->]. auto.
Qed.

(** X19. The message id determines the clock reading and the random
    suffix it was built from: for clock readings that are not negative, two
    ids are equal only when both the readings and the suffixes are
    equal. *)
Theorem messageId_inj (now1 now2 : Z) (draw1 draw2 : string) :
  0 <= now1 -> 0 <= now2 ->
  messageId now1 draw1 = messageId now2 draw2 ->
  now1 = now2 /\ draw1 = draw2.
Proof.
  intros H1 H2 H. unfold messageId in H.
  injection H as H.
  apply digits_dash_split in H as [Hn Hd]; auto using pretty_Z_digits.
  split; [|exact Hd]. now apply (inj pretty).
Qed.

Lemma messageId_inj_witness :
  messageId 1700000008000 "k3j9x0q1z" = messageId 1700000008000 "k3j9x0q1z"
  /\ (1700000008000 = 1700000008000 /\ "k3j9x0q1z" = "k3j9x0q1z").
Proof.
  split; [reflexivity|].
  apply (messageId_inj 1700000008000 1700000008000); [lia | lia | reflexivity].
Defined.

(** ** Conversation state on the tick path *)

Lemma slice_last_length_le {A} (n : nat) (l : list A) :
  (length (Js.slice_last n l) <= n)%nat.
Proof. unfold Js.slice_last. rewrite length_drop. lia. Qed.

(** X20. A tick never reaches the state [extended_debate].  The history a
    tick works on is [getRecentMessages(8)], so it has at most 8 messages
    and the state computed from it is never [extended_debate]: none of the
    four tasks of that state is ever handed out.  The stage of
    [analyzeConversationFlow] uses other thresholds than the state: it says
    "Deep discussion" exactly on a history of 8 messages, and on a history
    of 7 the state is [deep_discussion] while the stage is still
    "Developing"; that is the one length on which the two disagree. *)
Theorem extended_debate_unreachable (w : World) (agent other : Agent) :
  let recent := eval (getRecentMessages 8) w in
  conversationState recent <> extended_debate
  /\ getTaskForAgent agent (conversationState recent)
     <> getTaskForAgent other extended_debate
  /\ (discussionStage recent = DeepDiscussion <-> length recent = 8%nat)
  /\ (conversationState recent = deep_discussion
      /\ discussionStage recent = Developing <-> length recent = 7%nat).
Proof.
  intros recent.
  assert (Hlen : (length recent <= 8)%nat).
  { unfold recent. rewrite getRecentMessages_eval.
    apply slice_last_length_le. }
  unfold conversationState, discussionStage.
  generalize dependent (length recent). intros n Hn.
  do 9 (destruct n as [|n]; [simpl;
    (split; [discriminate|]);
    (split; [destruct agent, other; discriminate|]);
    split; split; try discriminate; try lia; try tauto;
    try (intros [? ?]; discriminate); auto|]).
  lia.
Qed.

(** ** The most active agent *)

Lemma countAt_cons (a b : Agent) (n : nat) (acc : list (Agent * nat)) :
  countAt a ((b, n) :: acc)
  = ((if decide (b = a) then n else 0) + countAt a acc)%nat.
Proof.
  unfold countAt. rewrite filter_cons. simpl.
  destruct (decide (b = a)); reflexivity.
Qed.

Lemma countAt_bump (a b : Agent) (acc : list (Agent * nat)) :
  countAt b (bump a acc)
  = (countAt b acc + if decide (a = b) then 1 else 0)%nat.
Proof.
  induction acc as [|[c n] acc IH]; simpl.
  - rewrite countAt_cons. unfold countAt. simpl.
    destruct (decide (a = b)); reflexivity.
  - destruct (Agent_eq_dec a c) as [->|Hac].
    + rewrite !countAt_cons. destruct (decide (c = b)); lia.
    + rewrite !countAt_cons, IH. destruct (decide (c = b)); lia.
Qed.

Lemma bump_keys (a : Agent) (acc : list (Agent * nat)) :
  forall b, b ∈ map fst (bump a acc) <-> b = a \/ b ∈ map fst acc.
Proof.
  induction acc as [|[c n] acc IH]; intros b; simpl.
  - rewrite list_elem_of_singleton, elem_of_nil. tauto.
  - destruct (Agent_eq_dec a c) as [->|Hac]; simpl.
    + rewrite elem_of_cons. tauto.
    + rewrite !elem_of_cons, IH. tauto.
Qed.

Lemma bump_NoDup (a : Agent) (acc : list (Agent * nat)) :
  NoDup (map fst acc) -> NoDup (map fst (bump a acc)).
Proof.
  induction acc as [|[c n] acc IH]; simpl; intros H.
  - apply NoDup_singleton.
  - destruct (Agent_eq_dec a c) as [->|Hac]; simpl; [exact H|].
    apply NoDup_cons in H as [Hc H].
    apply NoDup_cons. split; [|auto].
    rewrite bump_keys. intros [->|Hin]; [now apply Hac | now apply Hc].
Qed.

Lemma agentCounts_snoc (l : list OracleMessage.t) (m : OracleMessage.t) :
  agentCounts (l ++ [m]) = bump (OracleMessage.agent m) (agentCounts l).
Proof. unfold agentCounts. now rewrite fold_left_app. Qed.

Lemma messagesOf_snoc (a : Agent) (l : list OracleMessage.t)
    (m : OracleMessage.t) :
  messagesOf a (l ++ [m])
  = (messagesOf a l + if decide (OracleMessage.agent m = a) then 1 else 0)%nat.
Proof.
  unfold messagesOf. rewrite filter_app, length_app, filter_cons, filter_nil.
  destruct (decide (OracleMessage.agent m = a)); reflexivity.
Qed.

(** The object of counts holds, for every agent, the number of its
    messages, under keys that are pairwise different. *)
Lemma agentCounts_spec (l : list OracleMessage.t) :
  NoDup (map fst (agentCounts l))
  /\ forall a, countAt a (agentCounts l) = messagesOf a l.
Proof.
  induction l as [|m l [IH1 IH2]] using rev_ind.
  - split; [apply NoDup_nil_2 | reflexivity].
  - rewrite agentCounts_snoc. split; [now apply bump_NoDup|].
    intros a. now rewrite countAt_bump, IH2, messagesOf_snoc.
Qed.

Lemma countAt_missing (acc : list (Agent * nat)) (a : Agent) :
  a ∉ map fst acc -> countAt a acc = 0%nat.
Proof.
  induction acc as [|[c k] acc IH]; intros H; [reflexivity|].
  simpl in H. rewrite not_elem_of_cons in H. destruct H as [Hc H].
  rewrite countAt_cons, decide_False by congruence.
  now apply IH.
Qed.

Lemma countAt_entry (acc : list (Agent * nat)) (a : Agent) (n : nat) :
  NoDup (map fst acc) -> (a, n) ∈ acc -> countAt a acc = n.
Proof.
  induction acc as [|[c k] acc IH]; intros Hnd Hin.
  - now apply elem_of_nil in Hin.
  - simpl in Hnd. apply NoDup_cons in Hnd as [Hc Hnd].
    rewrite countAt_cons. apply elem_of_cons in Hin as [[= <- <-]|Hin].
    + rewrite decide_True, (countAt_missing acc a Hc) by reflexivity. lia.
    + rewrite decide_False.
      * now apply IH.
      * intros ->. apply Hc. apply list_elem_of_fmap. now exists (a, n).
Qed.

(** The reduction keeps the larger pair. *)
Lemma reduce_max (entries : list (Agent * nat)) (init : option Agent * nat) :
  let r := fold_left (fun a b => if (snd b <? snd a)%nat then a
                                 else (Some (fst b), snd b))
                     entries init in
  (snd init <= snd r)%nat
  /\ (forall e, e ∈ entries -> (snd e <= snd r)%nat)
  /\ (r = init \/ exists e, e ∈ entries /\ r = (Some (fst e), snd e)).
Proof.
  revert init. induction entries as [|b entries IH]; intros init; simpl.
  - split; [lia|]. split; [|now left].
    intros e He. now apply elem_of_nil in He.
  - specialize (IH (if (snd b <? snd init)%nat then init
                    else (Some (fst b), snd b))).
    simpl in IH. destruct IH as (H1 & H2 & H3).
    destruct (Nat.ltb_spec (snd b) (snd init)) as [Hlt|Hge].
    + split; [exact H1|]. split.
      * intros e He. apply elem_of_cons in He as [->|He]; [lia | auto].
      * destruct H3 as [H3|(e & He & H3)]; [now left|].
        right. exists e. split; [now apply elem_of_cons; right | exact H3].
    + simpl in H1. split; [lia|]. split.
      * intros e He. apply elem_of_cons in He as [->|He]; [lia | auto].
      * right. destruct H3 as [H3|(e & He & H3)].
        -- exists b. split; [apply elem_of_cons; now left | exact H3].
        -- exists e. split; [now apply elem_of_cons; right | exact H3].
Qed.

(** X21. The "most active agent" of [analyzeConversationFlow] is one: the
    count it reports is the largest number of messages any agent has in the
    history, and it is the number of messages of the agent reported
    beside it; on an empty history the pair is the empty name with 0, on
    any other an agent of the history with at least one message. *)
Theorem mostActiveAgent_spec (recent : list OracleMessage.t) :
  (forall a, (messagesOf a recent <= snd (mostActiveAgent recent))%nat)
  /\ (recent = [] -> mostActiveAgent recent = (None, 0%nat))
  /\ (recent <> [] ->
      exists a, mostActiveAgent recent = (Some a, messagesOf a recent)
                /\ a ∈ map OracleMessage.agent recent
                /\ (0 < messagesOf a recent)%nat).
Proof.
  destruct (agentCounts_spec recent) as [Hnd Hcount].
  destruct (reduce_max (agentCounts recent) (None, 0%nat)) as (_ & Hmax & Hin).
  fold (mostActiveAgent recent) in Hmax, Hin.
  assert (Hall : forall a,
             (messagesOf a recent <= snd (mostActiveAgent recent))%nat).
  { intros a. rewrite <- Hcount.
    destruct (decide (a ∈ map fst (agentCounts recent))) as [Hk|Hk].
    - apply list_elem_of_fmap in Hk as ([b n] & -> & He). simpl.
      rewrite (countAt_entry _ b n Hnd He). exact (Hmax _ He).
    - rewrite countAt_missing by exact Hk. lia. }
  split; [exact Hall|]. split; [now intros ->|].
  intros Hne.
  destruct recent as [|m rest] using rev_ind; [now destruct Hne|]. clear IHrest.
  set (recent := rest ++ [m]) in *.
  assert (Hpos : (0 < messagesOf (OracleMessage.agent m) recent)%nat).
  { unfold recent. rewrite messagesOf_snoc, decide_True by reflexivity. lia. }
  destruct Hin as [Hinit|([a n] & He & Hr)].
  - specialize (Hall (OracleMessage.agent m)). rewrite Hinit in Hall.
    simpl in Hall. lia.
  - simpl in Hr. exists a.
    assert (Hn : n = messagesOf a recent).
    { rewrite <- Hcount. symmetry. now apply countAt_entry. }
    subst n. split; [exact Hr|].
    assert (Hpa : (0 < messagesOf a recent)%nat).
    { specialize (Hall (OracleMessage.agent m)). rewrite Hr in Hall.
      simpl in Hall. lia. }
    split; [|exact Hpa].
    unfold messagesOf in Hpa.
    destruct (filter _ recent) as [|x xs] eqn:Hf; [simpl in Hpa; lia|].
    assert (Hx : x ∈ filter (fun msg => OracleMessage.agent msg = a) recent).
    { rewrite Hf. apply elem_of_cons. now left. }
    apply list_elem_of_filter in Hx as [Hxa Hx].
    apply list_elem_of_fmap. exists x. split; [now symmetry | exact Hx].
Qed.

(** ** Numbering of the visible messages *)

(** X22. The numbers in front of the visible messages are their positions
    only on a history of five or more.  The message shown at an index of
    the "last 5" list is the message of the history at that index plus
    [length - 5] (cut off at 0); with five or more messages its number is
    its position in the history, counted from 1; with fewer than five the
    number is the position less [5 - length], so the first message of a
    history of four is shown as #0 and the numbers never reach the
    position. *)
Theorem conversationFlow_numbers (recent : list OracleMessage.t)
    (index : nat) (number : Z) (msg : OracleMessage.t) :
  conversationFlow recent !! index = Some (number, msg) ->
  let position := (length recent - 5 + index)%nat in
  recent !! position = Some msg
  /\ ((5 <= length recent)%nat -> number = Z.of_nat position + 1)
  /\ ((length recent < 5)%nat ->
      number = Z.of_nat position + 1 - (5 - Z.of_nat (length recent))
      /\ number < Z.of_nat position + 1).
Proof.
  intros H position.
  unfold conversationFlow, messageNumber, Js.slice_last in H.
  rewrite list_lookup_imap, lookup_drop in H. fold position in H.
  destruct (recent !! position) as [m|] eqn:Hm; [|discriminate].
  simpl in H. injection H as <- <-.
  split; [reflexivity|]. unfold position. split; intros Hlen; [|split]; lia.
Qed.

Lemma conversationFlow_numbers_witness :
  fourMessages !! 0%nat
  = Some (sampleMessage analyzer "The price found support." 1000)
  /\ ((length fourMessages < 5)%nat ->
      0 = Z.of_nat 0 + 1 - (5 - Z.of_nat (length fourMessages))
      /\ 0 < Z.of_nat 0 + 1).
Proof.
  assert (H : conversationFlow fourMessages !! 0%nat
              = Some (0, sampleMessage analyzer
                            "The price found support." 1000))
    by (vm_compute; reflexivity).
  destruct (conversationFlow_numbers fourMessages 0 0 _ H) as (H1 & _ & H3).
  split; [exact H1 | exact H3].
Defined.
